(** * brew-tool: the [create] command (cmds/create.go)

    A shallow embedding of the formula generator and publisher, followed by
    the properties of its publish pipeline.

    Conventions.
    - A Go [string] is modelled by the sequence of Unicode code points
      ([rune]s) that its UTF-8 text decodes to.  Every string operation the
      program uses ([strings.Replace], [strings.Title], [strings.TrimSpace],
      [strings.Split], concatenation, [%s] formatting) acts rune by rune on
      such text.
    - Raw file contents (the [[]byte] read from disk and hashed) are lists
      of [Byte.byte].
    - Functions that talk to the outside world (git, the file system, the
      process environment, the GitHub API) run in a small monad that threads
      the state of the world, records one event per call, and can stop with
      [log.Fatal] or a run-time panic. *)

From Stdlib Require Import ZArith List Bool Lia String Ascii Sorted.
Import ListNotations.

Open Scope Z_scope.

Set Warnings "-register-all".

(* ================================================================== *)
(** * Go strings *)

Definition rune := Z.
Definition gostring := list rune.

Definition rune_of_ascii (a : ascii) : rune := Z.of_N (N_of_ascii a).

(** [str "abc"] is the Go string literal with the same ASCII characters. *)
Fixpoint str (s : string) : gostring :=
  match s with
  | EmptyString => []
  | String a t => rune_of_ascii a :: str t
  end.

(** Go's [==] on strings. *)
Fixpoint gostring_eqb (s t : gostring) : bool :=
  match s, t with
  | [], [] => true
  | a :: s', b :: t' => (a =? b) && gostring_eqb s' t'
  | _, _ => false
  end.

Definition LF : rune := 10.        (* '\n' *)
Definition SP : rune := 32.        (* ' '  *)
Definition HYPHEN : rune := 45.    (* '-'  *)
Definition UNDERSCORE : rune := 95. (* '_'  *)
Definition SLASH : rune := 47.     (* '/'  *)
Definition DOT : rune := 46.       (* '.'  *)

(* ================================================================== *)
(** * Package unicode *)

Module unicode.

Definition MaxASCII : rune := 127.
Definition MaxLatin1 : rune := 255.
Definition MaxRune : rune := 1114111.        (* U+10FFFF *)
Definition ReplacementChar : rune := 65533.  (* U+FFFD *)

(** The range tables for letters, digits and title-case mapping above
    Latin-1 change with the Unicode version a Go release ships; they are a
    parameter of the development. *)
Record Tables := {
  Letter : rune -> bool;
  Digit : rune -> bool;
  TitleCase : rune -> rune
}.

Definition inLatin1 (r : rune) : bool := (0 <=? r) && (r <=? MaxLatin1).

(** The [White_Space] table above Latin-1. *)
Definition White_Space (r : rune) : bool :=
  (r =? 5760) (* U+1680 *)
  || ((8192 <=? r) && (r <=? 8202)) (* U+2000..U+200A *)
  || ((8232 <=? r) && (r <=? 8233)) (* U+2028..U+2029 *)
  || (r =? 8239) (* U+202F *)
  || (r =? 8287) (* U+205F *)
  || (r =? 12288) (* U+3000 *).

Definition IsSpace (r : rune) : bool :=
  if inLatin1 r then
    (r =? 9) || (r =? 10) || (r =? 11) || (r =? 12) || (r =? 13)
    || (r =? 32) || (r =? 133) || (r =? 160)
  else White_Space r.

(** Letters of Latin-1 ([properties[r] & pLmask]). *)
Definition latin1Letter (r : rune) : bool :=
  ((65 <=? r) && (r <=? 90)) || ((97 <=? r) && (r <=? 122))
  || (r =? 170) || (r =? 181) || (r =? 186)
  || ((192 <=? r) && (r <=? 214))
  || ((216 <=? r) && (r <=? 246))
  || ((248 <=? r) && (r <=? 255)).

Definition IsLetter (T : Tables) (r : rune) : bool :=
  if inLatin1 r then latin1Letter r else Letter T r.

Definition IsDigit (T : Tables) (r : rune) : bool :=
  if inLatin1 r then (48 <=? r) && (r <=? 57) else Digit T r.

Definition ToTitle (T : Tables) (r : rune) : rune :=
  if r <=? MaxASCII then
    if (97 <=? r) && (r <=? 122) then r - 32 else r
  else TitleCase T r.

End unicode.

(* ================================================================== *)
(** * Package unicode/utf8 *)

Module utf8.

Definition RuneError : rune := unicode.ReplacementChar.

Definition ValidRune (r : rune) : bool :=
  ((0 <=? r) && (r <? 55296))
  || ((57343 <? r) && (r <=? unicode.MaxRune)).

(** What a rune reads back as once [EncodeRune] has written it: invalid
    runes are written as [RuneError]. *)
Definition encoded (r : rune) : rune :=
  if ValidRune r then r else RuneError.

End utf8.

(* ================================================================== *)
(** * Package strings *)

Module strings.

(** [strings.Replace(s, string(old), new, -1)] for a one-rune [old]:
    every occurrence of [old] is replaced by [new]. *)
Fixpoint Replace (s : gostring) (old : rune) (new : gostring) : gostring :=
  match s with
  | [] => []
  | c :: t => (if c =? old then new else [c]) ++ Replace t old new
  end.

(** [isSeparator] from strings.go. *)
Definition isSeparator (T : unicode.Tables) (r : rune) : bool :=
  if r <=? 127 then
    if (48 <=? r) && (r <=? 57) then false
    else if (97 <=? r) && (r <=? 122) then false
    else if (65 <=? r) && (r <=? 90) then false
    else if r =? 95 then false
    else true
  else if unicode.IsLetter T r || unicode.IsDigit T r then false
  else unicode.IsSpace r.

(** [strings.Title]: [Map] over the runes with a closure that remembers
    the previous rune in [prev]; a rune that follows a separator is
    replaced by its title case.  [Map] drops a negative result and writes
    the others with [EncodeRune]. *)
Fixpoint Title_from (T : unicode.Tables) (prev : rune) (s : gostring)
  : gostring :=
  match s with
  | [] => []
  | c :: t =>
      let r := if isSeparator T prev then unicode.ToTitle T c else c in
      (if r <? 0 then [] else [utf8.encoded r]) ++ Title_from T c t
  end.

Definition Title (T : unicode.Tables) (s : gostring) : gostring :=
  Title_from T SP s.

Fixpoint TrimLeftFunc (s : gostring) (f : rune -> bool) : gostring :=
  match s with
  | [] => []
  | c :: t => if f c then TrimLeftFunc t f else s
  end.

Fixpoint TrimRightFunc (s : gostring) (f : rune -> bool) : gostring :=
  match s with
  | [] => []
  | c :: t =>
      match TrimRightFunc t f with
      | [] => if f c then [] else [c]
      | t' => c :: t'
      end
  end.

Definition TrimFunc (s : gostring) (f : rune -> bool) : gostring :=
  TrimRightFunc (TrimLeftFunc s f) f.

Definition TrimSpace (s : gostring) : gostring :=
  TrimFunc s unicode.IsSpace.

(** [strings.Split(s, string(sep))] for a one-rune separator: the pieces
    between consecutive occurrences of [sep], in order; always at least
    one piece. *)
Fixpoint Split (s : gostring) (sep : rune) : list gostring :=
  match s with
  | [] => [[]]
  | c :: t =>
      if c =? sep then [] :: Split t sep
      else match Split t sep with
           | h :: tl => (c :: h) :: tl
           | [] => [[c]]
           end
  end.

(** [strings.Join(a, string(sep))]. *)
Fixpoint Join (a : list gostring) (sep : rune) : gostring :=
  match a with
  | [] => []
  | [x] => x
  | x :: rest => x ++ sep :: Join rest sep
  end.

End strings.

(* ================================================================== *)
(** * Package crypto/sha256 *)

Module sha256.

Definition uint32 (x : Z) : Z := x mod 4294967296.

(** [bits.RotateLeft32(x, -k)] on a 32-bit word. *)
Definition rotr (k x : Z) : Z :=
  uint32 (Z.lor (Z.shiftr x k) (Z.shiftl x (32 - k))).

Definition not32 (x : Z) : Z := Z.lxor x 0xffffffff.

Definition _K : list Z :=
  (* rounds  0.. 7 *)
  [0x428a2f98; 0x71374491; 0xb5c0fbcf; 0xe9b5dba5;
   0x3956c25b; 0x59f111f1; 0x923f82a4; 0xab1c5ed5]
  ++
  (* rounds  8..15 *)
  [0xd807aa98; 0x12835b01; 0x243185be; 0x550c7dc3;
   0x72be5d74; 0x80deb1fe; 0x9bdc06a7; 0xc19bf174]
  ++
  (* rounds 16..23 *)
  [0xe49b69c1; 0xefbe4786; 0x0fc19dc6; 0x240ca1cc;
   0x2de92c6f; 0x4a7484aa; 0x5cb0a9dc; 0x76f988da]
  ++
  (* rounds 24..31 *)
  [0x983e5152; 0xa831c66d; 0xb00327c8; 0xbf597fc7;
   0xc6e00bf3; 0xd5a79147; 0x06ca6351; 0x14292967]
  ++
  (* rounds 32..39 *)
  [0x27b70a85; 0x2e1b2138; 0x4d2c6dfc; 0x53380d13;
   0x650a7354; 0x766a0abb; 0x81c2c92e; 0x92722c85]
  ++
  (* rounds 40..47 *)
  [0xa2bfe8a1; 0xa81a664b; 0xc24b8b70; 0xc76c51a3;
   0xd192e819; 0xd6990624; 0xf40e3585; 0x106aa070]
  ++
  (* rounds 48..55 *)
  [0x19a4c116; 0x1e376c08; 0x2748774c; 0x34b0bcb5;
   0x391c0cb3; 0x4ed8aa4a; 0x5b9cca4f; 0x682e6ff3]
  ++
  (* rounds 56..63 *)
  [0x748f82ee; 0x78a5636f; 0x84c87814; 0x8cc70208;
   0x90befffa; 0xa4506ceb; 0xbef9a3f7; 0xc67178f2].

(** The eight chaining words [h[0..7]]. *)
Record words8 := W8 { h0 : Z; h1 : Z; h2 : Z; h3 : Z;
                      h4 : Z; h5 : Z; h6 : Z; h7 : Z }.

Definition init : words8 :=
  W8 0x6a09e667 0xbb67ae85 0x3c6ef372 0xa54ff53a
     0x510e527f 0x9b05688c 0x1f83d9ab 0x5be0cd19.

Definition u8 (b : Byte.byte) : Z := Z.of_N (Byte.to_N b).

(** Big-endian load of the sixteen message words of one 64-byte chunk;
    the list is kept most recent word first. *)
Fixpoint load (n : nat) (p : list Byte.byte) (w : list Z) : list Z :=
  match n with
  | O => w
  | S n' =>
      match p with
      | b0 :: b1 :: b2 :: b3 :: p' =>
          load n' p'
            (Z.lor (Z.lor (Z.lor (Z.shiftl (u8 b0) 24) (Z.shiftl (u8 b1) 16))
                          (Z.shiftl (u8 b2) 8)) (u8 b3) :: w)
      | _ => w
      end
  end.

(** Message schedule [w[16..63]]; [w] holds [w[i-1]] at its head. *)
Fixpoint extend (n : nat) (w : list Z) : list Z :=
  match n with
  | O => w
  | S n' =>
      let v1 := nth 1 w 0 in
      let t1 := Z.lxor (Z.lxor (rotr 17 v1) (rotr 19 v1)) (Z.shiftr v1 10) in
      let v2 := nth 14 w 0 in
      let t2 := Z.lxor (Z.lxor (rotr 7 v2) (rotr 18 v2)) (Z.shiftr v2 3) in
      extend n' (uint32 (t1 + nth 6 w 0 + t2 + nth 15 w 0) :: w)
  end.

Definition round (s : words8) (kw : Z * Z) : words8 :=
  let '(W8 a b c d e f g h) := s in
  let t1 := h + Z.lxor (Z.lxor (rotr 6 e) (rotr 11 e)) (rotr 25 e)
              + Z.lxor (Z.land e f) (Z.land (not32 e) g)
              + fst kw + snd kw in
  let t2 := Z.lxor (Z.lxor (rotr 2 a) (rotr 13 a)) (rotr 22 a)
            + Z.lxor (Z.lxor (Z.land a b) (Z.land a c)) (Z.land b c) in
  W8 (uint32 (t1 + t2)) a b c (uint32 (d + t1)) e f g.

(** One iteration of the loop of [blockGeneric]. *)
Definition block (s : words8) (chunk : list Byte.byte) : words8 :=
  let w := rev (extend 48 (load 16 chunk [])) in
  let '(W8 a b c d e f g h) := fold_left round (combine _K w) s in
  W8 (uint32 (h0 s + a)) (uint32 (h1 s + b)) (uint32 (h2 s + c))
     (uint32 (h3 s + d)) (uint32 (h4 s + e)) (uint32 (h5 s + f))
     (uint32 (h6 s + g)) (uint32 (h7 s + h)).

(** [for len(p) >= chunk { ...; p = p[chunk:] }] *)
Fixpoint blocks (n : nat) (s : words8) (p : list Byte.byte) : words8 :=
  match n with
  | O => s
  | S n' => blocks n' (block s (firstn 64 p)) (skipn 64 p)
  end.

Definition byte_of_Z (x : Z) : Byte.byte :=
  match Byte.of_N (Z.to_N (x mod 256)) with
  | Some b => b
  | None => Byte.x00
  end.

(** [binary.BigEndian.PutUint64] *)
Definition be64 (x : Z) : list Byte.byte :=
  map (fun k => byte_of_Z (Z.shiftr x k)) [56; 48; 40; 32; 24; 16; 8; 0].

(** [binary.BigEndian.PutUint32] *)
Definition be32 (x : Z) : list Byte.byte :=
  map (fun k => byte_of_Z (Z.shiftr x k)) [24; 16; 8; 0].

(** The padding [checkSum] appends: a one bit, zero bits up to 56 bytes
    modulo 64, and the message length in bits. *)
Definition padding (len : Z) : list Byte.byte :=
  let r := len mod 64 in
  let n := if r <? 56 then 56 - r else 64 + 56 - r in
  Byte.x80 :: repeat Byte.x00 (Z.to_nat (n - 1))
    ++ be64 (Z.shiftl len 3 mod 18446744073709551616).

(** The hash object returned by [sha256.New()]: the bytes written so
    far.  [Write] appends, [Sum(nil)] pads and runs the block function
    over everything written. *)
Definition digest := list Byte.byte.

Definition New : digest := [].

Definition Write (d : digest) (p : list Byte.byte) : digest := d ++ p.

Definition Sum (d : digest) : list Byte.byte :=
  let p := d ++ padding (Z.of_nat (List.length d)) in
  let s := blocks (Nat.div (List.length p) 64) init p in
  be32 (h0 s) ++ be32 (h1 s) ++ be32 (h2 s) ++ be32 (h3 s)
    ++ be32 (h4 s) ++ be32 (h5 s) ++ be32 (h6 s) ++ be32 (h7 s).

End sha256.

(* ================================================================== *)
(** * Package encoding/hex *)

Module hex.

Definition hextable : gostring := str "0123456789abcdef".

(** [hex.EncodeToString]: two digits per byte, high nibble first. *)
Fixpoint EncodeToString (src : list Byte.byte) : gostring :=
  match src with
  | [] => []
  | v :: rest =>
      nth (Z.to_nat (Z.shiftr (sha256.u8 v) 4)) hextable 0
      :: nth (Z.to_nat (Z.land (sha256.u8 v) 15)) hextable 0
      :: EncodeToString rest
  end.

End hex.

(* ================================================================== *)
(** * Package path/filepath (Unix: the separator is '/') *)

Module filepath.

Definition Separator : rune := SLASH.

Definition IsPathSeparator (c : rune) : bool := c =? SLASH.

(** The output buffer of [Clean] is kept last byte first, so its head is
    [out.index(out.w - 1)] and its length is [out.w]. *)

(** [out.w--; for out.w > dotdot && !IsPathSeparator(out.index(out.w)) { out.w-- }] *)
Fixpoint backtrack (out : list rune) (dotdot : nat) : list rune :=
  match out with
  | [] => []
  | c :: rest =>
      if Nat.ltb dotdot (List.length rest) && negb (IsPathSeparator c)
      then backtrack rest dotdot
      else rest
  end.

(** [r == n || IsPathSeparator(path[r])] where [p] is [path[r:]]. *)
Definition endOfElement (p : gostring) : bool :=
  match p with
  | [] => true
  | c :: _ => IsPathSeparator c
  end.

Fixpoint element (p : gostring) : gostring :=
  match p with
  | [] => []
  | c :: t => if IsPathSeparator c then [] else c :: element t
  end.

Fixpoint afterElement (p : gostring) : gostring :=
  match p with
  | [] => []
  | c :: t => if IsPathSeparator c then p else afterElement t
  end.

(** The loop [for r < n { switch ... }] of [Clean]; [p] is [path[r:]].
    Every iteration consumes at least one byte of [p], so [fuel] =
    [len(path)] iterations are enough. *)
Fixpoint cleanLoop (fuel : nat) (rooted : bool) (p : gostring)
         (out : list rune) (dotdot : nat) : list rune :=
  match fuel with
  | O => out
  | S fuel' =>
      match p with
      | [] => out
      | c :: p1 =>
          if IsPathSeparator c then
            (* empty path element *)
            cleanLoop fuel' rooted p1 out dotdot
          else if (c =? DOT) && endOfElement p1 then
            (* . element *)
            cleanLoop fuel' rooted p1 out dotdot
          else if (c =? DOT)
                  && match p1 with
                     | c1 :: p2 => (c1 =? DOT) && endOfElement p2
                     | [] => false
                     end then
            (* .. element: remove to last separator *)
            let p2 := skipn 1 p1 in
            if Nat.ltb dotdot (List.length out) then
              cleanLoop fuel' rooted p2 (backtrack out dotdot) dotdot
            else if negb rooted then
              let out1 :=
                if Nat.ltb 0 (List.length out) then Separator :: out
                else out in
              let out2 := DOT :: DOT :: out1 in
              cleanLoop fuel' rooted p2 out2 (List.length out2)
            else cleanLoop fuel' rooted p2 out dotdot
          else
            (* real path element: add slash if needed, copy element *)
            let out1 :=
              if (rooted && negb (Nat.eqb (List.length out) 1))
                 || (negb rooted && negb (Nat.eqb (List.length out) 0))
              then Separator :: out else out in
            cleanLoop fuel' rooted (afterElement p)
                      (rev (element p) ++ out1) dotdot
      end
  end.

Definition Clean (path : gostring) : gostring :=
  match path with
  | [] => [DOT]
  | c :: rest =>
      let rooted := IsPathSeparator c in
      let out :=
        if rooted
        then cleanLoop (List.length path) rooted rest [Separator] 1
        else cleanLoop (List.length path) rooted path [] 0 in
      match out with
      | [] => [DOT]
      | _ => rev out
      end
  end.

(** [filepath.Join]: the elements from the first non-empty one on are
    joined with the separator and cleaned. *)
Fixpoint Join (elem : list gostring) : gostring :=
  match elem with
  | [] => []
  | [] :: rest => Join rest
  | _ :: _ => Clean (strings.Join elem Separator)
  end.

End filepath.

(* ================================================================== *)
(** * cmds/create.go: the pure helpers *)

(** func split(s string) []string *)
Definition split (s : gostring) : list gostring :=
  let strings := strings.Split (strings.TrimSpace s) LF in
  if Nat.eqb (List.length strings) 1 && gostring_eqb (nth 0 strings []) []
  then []
  else strings.

(** func formulaNameFor(name string) string *)
Definition formulaNameFor (T : unicode.Tables) (name : gostring) : gostring :=
  let name := strings.Replace name HYPHEN [SP] in
  let name := strings.Replace name UNDERSCORE [SP] in
  strings.Replace (strings.Title T name) SP [].

(* ================================================================== *)
(** * Errors *)

(** A Go [error] value.  The program never inspects an error; it only
    passes it on or logs it. *)
Inductive error : Type :=
| errorString (msg : gostring)
| ExecError (templateName : gostring) (field : gostring).

(* ================================================================== *)
(** * Package text/template *)

Module template.

(** The data a template is executed on, as reflection sees it. *)
Inductive value : Type :=
| VString (s : gostring)
| VSlice (l : list gostring)
| VStruct (fields : list (gostring * value)).

(** A pipeline is [.] or a field of dot, [.Field]. *)
Inductive Pipe : Type :=
| Dot
| Field (name : gostring).

Inductive Node : Type :=
| TextNode (text : gostring)
| ActionNode (pipe : Pipe)
| IfNode (pipe : Pipe) (list_ elseList : list Node)
| RangeNode (pipe : Pipe) (list_ elseList : list Node).

Record Template := { name : gostring; Tree : list Node }.

Fixpoint lookup (fields : list (gostring * value)) (f : gostring)
  : option value :=
  match fields with
  | [] => None
  | (k, v) :: rest => if gostring_eqb k f then Some v else lookup rest f
  end.

Definition evalPipe (tname : gostring) (dot : value) (p : Pipe)
  : value + error :=
  match p with
  | Dot => inl dot
  | Field f =>
      match dot with
      | VStruct fields =>
          match lookup fields f with
          | Some v => inl v
          | None => inr (ExecError tname f)
          end
      | _ => inr (ExecError tname f)
      end
  end.

(** Truth of a pipeline value: the empty string and the empty slice are
    false. *)
Definition isTrue (v : value) : bool :=
  match v with
  | VString [] => false
  | VSlice [] => false
  | _ => true
  end.

(** [fmt.Fprint] of a value. *)
Fixpoint printValue (v : value) : gostring :=
  match v with
  | VString s => s
  | VSlice l => str "[" ++ strings.Join l SP ++ str "]"
  | VStruct fields =>
      str "{"
      ++ strings.Join (map (fun kv => printValue (snd kv)) fields) SP
      ++ str "}"
  end.

(** [state.walk]: output is appended to the writer [out]; what was
    written before an error stays written. *)
Fixpoint walk (tname : gostring) (dot : value) (n : Node) (out : gostring)
         {struct n} : gostring * option error :=
  let walkList :=
    fix walkList (dot : value) (ns : list Node) (out : gostring)
      : gostring * option error :=
      match ns with
      | [] => (out, None)
      | n :: rest =>
          match walk tname dot n out with
          | (out', None) => walkList dot rest out'
          | r => r
          end
      end in
  match n with
  | TextNode text => (out ++ text, None)
  | ActionNode pipe =>
      match evalPipe tname dot pipe with
      | inl v => (out ++ printValue v, None)
      | inr e => (out, Some e)
      end
  | IfNode pipe list_ elseList =>
      match evalPipe tname dot pipe with
      | inl v =>
          if isTrue v then walkList dot list_ out
          else walkList dot elseList out
      | inr e => (out, Some e)
      end
  | RangeNode pipe list_ elseList =>
      match evalPipe tname dot pipe with
      | inl (VSlice []) => walkList dot elseList out
      | inl (VSlice elems) =>
          (fix each (elems : list gostring) (out : gostring)
             : gostring * option error :=
             match elems with
             | [] => (out, None)
             | x :: rest =>
                 match walkList (VString x) list_ out with
                 | (out', None) => each rest out'
                 | r => r
                 end
             end) elems out
      | inl _ => (out, Some (ExecError tname (str "range")))
      | inr e => (out, Some e)
      end
  end.

Fixpoint walkList (tname : gostring) (dot : value) (ns : list Node)
         (out : gostring) : gostring * option error :=
  match ns with
  | [] => (out, None)
  | n :: rest =>
      match walk tname dot n out with
      | (out', None) => walkList tname dot rest out'
      | r => r
      end
  end.

(** [tmpl.Execute(&out, data)] *)
Definition Execute (t : Template) (out : gostring) (data : value)
  : gostring * option error :=
  walkList (name t) data (Tree t) out.

End template.

(* ================================================================== *)
(** * Data of cmds/create.go *)

Record Homebrew := {
  Name : gostring;
  Owner : gostring;
  Repo : gostring;
  BrewOwner : gostring;
  BrewRepo : gostring;
  Author : gostring;
  AuthorEmail : gostring;
  Folder : gostring;
  Caveats : gostring;
  Plist : gostring;
  Install : gostring;
  Dependencies : list gostring;
  Test : gostring;
  Conflicts : list gostring;
  Description : gostring;
  Homepage : gostring;
  SkipUpload : bool
}.

(** [brew.Name = v] *)
Definition set_Name (brew : Homebrew) (v : gostring) : Homebrew :=
  {| Name := v; Owner := Owner brew; Repo := Repo brew;
     BrewOwner := BrewOwner brew; BrewRepo := BrewRepo brew;
     Author := Author brew; AuthorEmail := AuthorEmail brew;
     Folder := Folder brew; Caveats := Caveats brew; Plist := Plist brew;
     Install := Install brew; Dependencies := Dependencies brew;
     Test := Test brew; Conflicts := Conflicts brew;
     Description := Description brew; Homepage := Homepage brew;
     SkipUpload := SkipUpload brew |}.

(** [brew.Install = v] *)
Definition set_Install (brew : Homebrew) (v : gostring) : Homebrew :=
  {| Name := Name brew; Owner := Owner brew; Repo := Repo brew;
     BrewOwner := BrewOwner brew; BrewRepo := BrewRepo brew;
     Author := Author brew; AuthorEmail := AuthorEmail brew;
     Folder := Folder brew; Caveats := Caveats brew; Plist := Plist brew;
     Install := v; Dependencies := Dependencies brew;
     Test := Test brew; Conflicts := Conflicts brew;
     Description := Description brew; Homepage := Homepage brew;
     SkipUpload := SkipUpload brew |}.

Module Artifact.
Record t := { Name : gostring; Path : gostring; Version : gostring }.
End Artifact.

(** The record the formula template is executed on; its fields and their
    types are those of the composite literal in [dataFor]. *)
Module templateData.
Record t := {
  Name : gostring;
  DownloadURL : gostring;
  Desc : gostring;
  Homepage : gostring;
  Owner : gostring;
  Repo : gostring;
  Tag : gostring;
  Version : gostring;
  Caveats : list gostring;
  File : gostring;
  SHA256 : gostring;
  Dependencies : list gostring;
  Conflicts : list gostring;
  Plist : gostring;
  Install : list gostring
}.

(** The zero value of the struct. *)
Definition zero : t :=
  {| Name := []; DownloadURL := []; Desc := []; Homepage := [];
     Owner := []; Repo := []; Tag := []; Version := []; Caveats := [];
     File := []; SHA256 := []; Dependencies := []; Conflicts := [];
     Plist := []; Install := [] |}.

(** The record as the template engine sees it through reflection. *)
Definition reflect (d : t) : template.value :=
  template.VStruct
    [ (str "Name", template.VString (Name d));
      (str "DownloadURL", template.VString (DownloadURL d));
      (str "Desc", template.VString (Desc d));
      (str "Homepage", template.VString (Homepage d));
      (str "Owner", template.VString (Owner d));
      (str "Repo", template.VString (Repo d));
      (str "Tag", template.VString (Tag d));
      (str "Version", template.VString (Version d));
      (str "Caveats", template.VSlice (Caveats d));
      (str "File", template.VString (File d));
      (str "SHA256", template.VString (SHA256 d));
      (str "Dependencies", template.VSlice (Dependencies d));
      (str "Conflicts", template.VSlice (Conflicts d));
      (str "Plist", template.VString (Plist d));
      (str "Install", template.VSlice (Install d)) ].
End templateData.

(* ================================================================== *)
(** * Package github (google/go-github): the values the program touches *)

Module github.

Record Response := { StatusCode : Z }.

(** [RepositoryContent]; [SHA] is a [*string]. *)
Record RepositoryContent := { SHA : option gostring }.

Record CommitAuthor := {
  Name : option gostring;
  Email : option gostring
}.

Record RepositoryContentFileOptions := {
  Message : option gostring;
  Content : gostring;
  FileSHA : option gostring;
  Committer : option CommitAuthor
}.

(** [options.SHA = sha] *)
Definition set_SHA (o : RepositoryContentFileOptions) (sha : option gostring)
  : RepositoryContentFileOptions :=
  {| Message := Message o; Content := Content o; FileSHA := sha;
     Committer := Committer o |}.

End github.

(* ================================================================== *)
(** * The world outside the process *)

(** One event per call that leaves the process, with the arguments of the
    call, in program order.  [EvRender] marks the call of [doBuildFormula]
    and carries the record handed to the renderer. *)
Inductive Event : Type :=
| EvGit (args : list gostring)
| EvOpen (path : gostring)
| EvCopy (path : gostring)
| EvClose (path : gostring)
| EvRender (data : templateData.t)
| EvWriteFile (path : gostring) (data : gostring) (perm : Z)
| EvLookupEnv (key : gostring)
| EvGetContents (token owner repo path : gostring)
| EvCreateFile (token owner repo path : gostring)
               (opts : github.RepositoryContentFileOptions)
| EvUpdateFile (token owner repo path : gostring)
               (opts : github.RepositoryContentFileOptions).

(** The collaborators, as operations on the state [W] of the world.
    - [git_Clean_Run args] is [git.Clean(git.Run(args...))] of the
      repository's internal/git package.
    - [os_Open], [io_Copy] and [file_Close] act on the file at a path;
      [io_Copy] yields the bytes it could hand to the writer and the read
      error that stopped it, if any.
    - the three [Repositories] calls of the GitHub client take the access
      token the client was built with. *)
Record System (W : Type) := {
  git_Clean_Run : list gostring -> W -> (gostring * option error) * W;
  os_Open : gostring -> W -> option error * W;
  io_Copy : gostring -> W -> (list Byte.byte * option error) * W;
  file_Close : gostring -> W -> unit * W;
  ioutil_WriteFile : gostring -> gostring -> Z -> W -> option error * W;
  os_LookupEnv : gostring -> W -> (gostring * bool) * W;
  Repositories_GetContents :
    gostring -> gostring -> gostring -> gostring -> W ->
    (option github.RepositoryContent * option github.Response * option error)
    * W;
  Repositories_CreateFile :
    gostring -> gostring -> gostring -> gostring ->
    github.RepositoryContentFileOptions -> W -> option error * W;
  Repositories_UpdateFile :
    gostring -> gostring -> gostring -> gostring ->
    github.RepositoryContentFileOptions -> W -> option error * W
}.

Arguments git_Clean_Run {W}.
Arguments os_Open {W}.
Arguments io_Copy {W}.
Arguments file_Close {W}.
Arguments ioutil_WriteFile {W}.
Arguments os_LookupEnv {W}.
Arguments Repositories_GetContents {W}.
Arguments Repositories_CreateFile {W}.
Arguments Repositories_UpdateFile {W}.

(** What [log.Fatal] printed before [os.Exit(1)]. *)
Inductive logged : Type :=
| LogError (e : error)
| LogLine (s : gostring).

(** How a call ends: it returns, the process exits through [log.Fatal], or
    it panics (nil pointer dereference). *)
Inductive result (A : Type) : Type :=
| Returned (a : A)
| Fatal (l : logged)
| Panic.

Arguments Returned {A}.
Arguments Fatal {A}.
Arguments Panic {A}.

Definition M (W A : Type) : Type :=
  W * list Event -> result A * (W * list Event).

Definition ret {W A} (a : A) : M W A := fun s => (Returned a, s).

Definition bind {W A B} (m : M W A) (k : A -> M W B) : M W B :=
  fun s =>
    match m s with
    | (Returned a, s') => k a s'
    | (Fatal l, s') => (Fatal l, s')
    | (Panic, s') => (Panic, s')
    end.

Declare Scope go_scope.
Delimit Scope go_scope with go.

Notation "x <- c ;; k" := (bind c (fun x => k))
  (at level 61, c at next level, right associativity) : go_scope.
Notation "' pat <- c ;; k" := (bind c (fun pat => k))
  (at level 61, pat pattern, c at next level, right associativity) : go_scope.

(** A call to a collaborator: the event is recorded, the world moves on. *)
Definition call {W A} (ev : Event) (op : W -> A * W) : M W A :=
  fun s => let '(a, w') := op (fst s) in (Returned a, (w', snd s ++ [ev])).

(** A call inside the process that is only recorded. *)
Definition note {W} (ev : Event) : M W unit :=
  fun s => (Returned tt, (fst s, snd s ++ [ev])).

Definition log_Fatal {W A} (e : error) : M W A :=
  fun s => (Fatal (LogError e), s).

Definition log_Fatalln {W A} (line : gostring) : M W A :=
  fun s => (Fatal (LogLine line), s).

(** Dereference of a pointer that may be nil. *)
Definition deref {W A} (p : option A) : M W A :=
  match p with
  | Some a => ret a
  | None => fun s => (Panic, s)
  end.

(** A run from a fresh process: how it ended and the events it left. *)
Definition outcome {W A} (m : M W A) (w : W) : result A := fst (m (w, [])).
Definition trace {W A} (m : M W A) (w : W) : list Event :=
  snd (snd (m (w, []))).

(* ================================================================== *)
(** * cmds/create.go: the pipeline *)

Section Create.

Context {W : Type} (sys : System W).
Context (T : unicode.Tables).

(** The constant [formulaTemplate] and the parser of text/template;
    [Parse name text] is [template.New(name).Parse(text)]. *)
Context (formulaTemplate : gostring).
Context (Parse : gostring -> gostring -> template.Template + error).

Local Open Scope go_scope.

(** func calculate(path string) (sum string, err error) *)
Definition calculate (path : gostring) : M W (gostring * option error) :=
  err <- call (EvOpen path) (os_Open sys path);;
  match err with
  | Some e => ret ([], Some e)
  | None =>
      (* defer f.Close() *)
      let hash := sha256.New in
      '(written, err) <- call (EvCopy path) (io_Copy sys path);;
      let hash := sha256.Write hash written in
      match err with
      | Some e =>
          _ <- call (EvClose path) (file_Close sys path);;
          ret ([], Some e)
      | None =>
          let sum := hex.EncodeToString (sha256.Sum hash) in
          _ <- call (EvClose path) (file_Close sys path);;
          ret (sum, None)
      end
  end.

(** The [templateData{...}] literal that [dataFor] returns. *)
Definition dataLiteral (brew : Homebrew) (artifact : Artifact.t)
           (sum : gostring) : templateData.t :=
  {| templateData.Name := formulaNameFor T (Name brew);
     templateData.DownloadURL := str "https://github.com";
     templateData.Desc := Description brew;
     templateData.Homepage := Homepage brew;
     templateData.Owner := Owner brew;
     templateData.Repo := Repo brew;
     templateData.Tag := Artifact.Version artifact;
     templateData.Version := Artifact.Version artifact;
     templateData.Caveats := split (Caveats brew);
     templateData.File := Artifact.Name artifact;
     templateData.SHA256 := sum;
     templateData.Dependencies := Dependencies brew;
     templateData.Conflicts := Conflicts brew;
     templateData.Plist := Plist brew;
     templateData.Install := split (Install brew) |}.

(** func dataFor(brew Homebrew, artifact Artifact) (result templateData, err error) *)
Definition dataFor (brew : Homebrew) (artifact : Artifact.t)
  : M W (templateData.t * option error) :=
  '(sum, err) <- calculate (Artifact.Path artifact);;
  match err with
  | Some e => ret (templateData.zero, Some e)
  | None => ret (dataLiteral brew artifact sum, None)
  end.

(** func doBuildFormula(data templateData) (out bytes.Buffer, err error) *)
Definition doBuildFormula (data : templateData.t) : gostring * option error :=
  let out : gostring := [] in
  match Parse (templateData.Name data) formulaTemplate with
  | inr err => (out, Some err)
  | inl tmpl => template.Execute tmpl out (templateData.reflect data)
  end.

(** func buildFormula(brew Homebrew, artifact Artifact) (bytes.Buffer, error) *)
Definition buildFormula (brew : Homebrew) (artifact : Artifact.t)
  : M W (gostring * option error) :=
  '(data, err) <- dataFor brew artifact;;
  match err with
  | Some e => ret ([], Some e)
  | None =>
      _ <- note (EvRender data);;
      ret (doBuildFormula data)
  end.

Definition GH_TOOLS_TOKEN : gostring := str "GH_TOOLS_TOKEN".

(** The [&github.RepositoryContentFileOptions{...}] literal of [upload];
    it sets no SHA. *)
Definition fileOptions (brew : Homebrew) (content message : gostring)
  : github.RepositoryContentFileOptions :=
  {| github.Committer :=
       Some {| github.Name := Some (Author brew);
               github.Email := Some (AuthorEmail brew) |};
     github.Content := content;
     github.Message := Some message;
     github.FileSHA := None |}.

(** func upload(brew Homebrew, content bytes.Buffer, path, message string) error *)
Definition upload (brew : Homebrew) (content : gostring)
           (path message : gostring) : M W (option error) :=
  '(token, found) <- call (EvLookupEnv GH_TOOLS_TOKEN)
                          (os_LookupEnv sys GH_TOOLS_TOKEN);;
  _ <- (if negb found
        then log_Fatalln (str "GH_TOOLS_TOKEN env var is not set")
        else ret tt);;
  let options := fileOptions brew content message in
  '(file, res, err) <-
    call (EvGetContents token (BrewOwner brew) (BrewRepo brew) path)
         (Repositories_GetContents sys token (BrewOwner brew)
                                   (BrewRepo brew) path);;
  (* if err != nil && res.StatusCode != 404 { return err } *)
  stop <- match err with
          | Some _ =>
              r <- deref res;; ret (negb (github.StatusCode r =? 404))
          | None => ret false
          end;;
  if stop : bool then ret err
  else
    r <- deref res;;
    if github.StatusCode r =? 404 then
      call (EvCreateFile token (BrewOwner brew) (BrewRepo brew) path options)
           (Repositories_CreateFile sys token (BrewOwner brew)
                                    (BrewRepo brew) path options)
    else
      f <- deref file;;
      let options := github.set_SHA options (github.SHA f) in
      call (EvUpdateFile token (BrewOwner brew) (BrewRepo brew) path options)
           (Repositories_UpdateFile sys token (BrewOwner brew)
                                    (BrewRepo brew) path options).

(** The two assignments that open [runCreate]. *)
Definition withDefaults (brew : Homebrew) : Homebrew :=
  let brew := set_Name brew (Repo brew) in
  set_Install brew (str "bin.install " ++ Name brew ++ str "-darwin-amd64").

(** The [Artifact] literal of [runCreate]. *)
Definition artifactFor (brew : Homebrew) (tag : gostring) : Artifact.t :=
  {| Artifact.Name := Name brew ++ str "-darwin-amd64";
     Artifact.Path :=
       str "dist/" ++ Name brew ++ str "/" ++ Name brew
       ++ str "-darwin-amd64";
     Artifact.Version := tag |}.

Definition tagArgs : list gostring :=
  [str "tag"; str "-l"; str "--points-at"; str "HEAD"].

(** [fmt.Sprintf("Brew formula update for %s version %s",
    artifact.Name, artifact.Version)] *)
Definition commitMessage (artifact : Artifact.t) : gostring :=
  str "Brew formula update for " ++ Artifact.Name artifact
  ++ str " version " ++ Artifact.Version artifact.

(** [filepath.Join("dist/", brew.Name + ".rb")] *)
Definition outputPath (brew : Homebrew) : gostring :=
  filepath.Join [str "dist/"; Name brew ++ str ".rb"].

(** func runCreate(brew Homebrew) *)
Definition runCreate (brew : Homebrew) : M W unit :=
  let brew := withDefaults brew in
  '(tag, err) <- call (EvGit tagArgs) (git_Clean_Run sys tagArgs);;
  match err with
  | Some e => log_Fatal e
  | None =>
      let artifact := artifactFor brew tag in
      '(content, err) <- buildFormula brew artifact;;
      match err with
      | Some e => log_Fatal e
      | None =>
          let path := outputPath brew in
          err <- call (EvWriteFile path content 420)
                      (ioutil_WriteFile sys path content 420);; (* 0644 *)
          match err with
          | Some e => log_Fatal e
          | None =>
              if SkipUpload brew then ret tt
              else
                let message := commitMessage artifact in
                err <- upload brew content (Name brew ++ str ".rb") message;;
                match err with
                | Some e => log_Fatal e
                | None => ret tt
                end
          end
      end
  end.

End Create.

(* ================================================================== *)
(** * Definitions used to state the properties *)

(** Unicode tables with nothing above Latin-1, for examples on ASCII
    names. *)
Definition asciiOnly : unicode.Tables :=
  {| unicode.Letter := fun _ => false;
     unicode.Digit := fun _ => false;
     unicode.TitleCase := fun r => r |}.

(** The name normalizer as the specification words it: separators become
    spaces, the first rune of every whitespace-delimited word is title
    cased, spaces are removed. *)
Fixpoint capitalizeWords (T : unicode.Tables) (wordStart : bool)
         (s : gostring) : gostring :=
  match s with
  | [] => []
  | c :: t =>
      if unicode.IsSpace c then c :: capitalizeWords T true t
      else (if wordStart then unicode.ToTitle T c else c)
             :: capitalizeWords T false t
  end.

Definition normalize_spec (T : unicode.Tables) (rawName : gostring) : gostring :=
  let spaced :=
    strings.Replace (strings.Replace rawName HYPHEN [SP]) UNDERSCORE [SP] in
  strings.Replace (capitalizeWords T true spaced) SP [].

(** The name normalizer in one pass over the input: [prev] is the previous
    rune after ['-'] and ['_'] have been turned into spaces; a rune that
    follows a separator of [strings.Title] is title cased; spaces are not
    copied. *)
Fixpoint normalize_from (T : unicode.Tables) (prev : rune) (s : gostring)
  : gostring :=
  match s with
  | [] => []
  | c :: t =>
      let c' := if (c =? HYPHEN) || (c =? UNDERSCORE) then SP else c in
      let r := if strings.isSeparator T prev then unicode.ToTitle T c' else c' in
      (if r <? 0 then []
       else if utf8.encoded r =? SP then [] else [utf8.encoded r])
      ++ normalize_from T c' t
  end.

(** The separators of [strings.Title] as the amended claim words them:
    an ASCII rune is a separator unless it is a letter, a digit or an
    underscore; a rune above ASCII is a separator only if it is white
    space and neither a letter nor a digit. *)
Definition isWordRune (r : rune) : bool :=
  ((48 <=? r) && (r <=? 57))
  || ((97 <=? r) && (r <=? 122))
  || ((65 <=? r) && (r <=? 90))
  || (r =? UNDERSCORE).

Definition separator_amended (T : unicode.Tables) (r : rune) : bool :=
  if r <=? unicode.MaxASCII then negb (isWordRune r)
  else unicode.IsSpace r
       && negb (unicode.IsLetter T r) && negb (unicode.IsDigit T r).

(** The name normalizer as the amended claim words it, in three passes:
    ['-'] and ['_'] become spaces; every rune that comes first or directly
    after a separator is title cased; spaces are removed. *)
Fixpoint titleWords (T : unicode.Tables) (prev : rune) (s : gostring)
  : gostring :=
  match s with
  | [] => []
  | c :: t =>
      (if separator_amended T prev then unicode.ToTitle T c else c)
        :: titleWords T c t
  end.

Definition normalize_amended (T : unicode.Tables) (rawName : gostring)
  : gostring :=
  let spaced :=
    strings.Replace (strings.Replace rawName HYPHEN [SP]) UNDERSCORE [SP] in
  strings.Replace (titleWords T SP spaced) SP [].

(** The runes of a Go string are valid code points, and the title case of
    a valid code point is one. *)
Definition validString (s : gostring) : bool := forallb utf8.ValidRune s.

Definition titleCaseValid (T : unicode.Tables) : Prop :=
  forall r, utf8.ValidRune r = true ->
            utf8.ValidRune (unicode.TitleCase T r) = true.

(** Lower-case hexadecimal digits. *)
Definition isLowerHex (c : rune) : bool :=
  ((48 <=? c) && (c <=? 57)) || ((97 <=? c) && (c <=? 102)).

(** The writes of the publish client to the remote store. *)
Definition isRemoteWrite (ev : Event) : bool :=
  match ev with
  | EvCreateFile _ _ _ _ _ | EvUpdateFile _ _ _ _ _ => true
  | _ => false
  end.

Definition remoteWrites (tr : list Event) : list Event :=
  filter isRemoteWrite tr.

(** The commit message of a remote write. *)
Definition messageOf (ev : Event) : option gostring :=
  match ev with
  | EvCreateFile _ _ _ _ opts | EvUpdateFile _ _ _ _ opts => github.Message opts
  | _ => None
  end.

(** The paths of the local files a run wrote. *)
Fixpoint writtenPaths (tr : list Event) : list gostring :=
  match tr with
  | [] => []
  | EvWriteFile p _ _ :: rest => p :: writtenPaths rest
  | _ :: rest => writtenPaths rest
  end.

(** The stages of the pipeline and the stage each event belongs to. *)
Inductive Stage : Type :=
| TagResolution | Digest | Render | LocalWrite | Publish.

Definition stageOf (ev : Event) : Stage :=
  match ev with
  | EvGit _ => TagResolution
  | EvOpen _ | EvCopy _ | EvClose _ => Digest
  | EvRender _ => Render
  | EvWriteFile _ _ _ => LocalWrite
  | EvLookupEnv _ | EvGetContents _ _ _ _
  | EvCreateFile _ _ _ _ _ | EvUpdateFile _ _ _ _ _ => Publish
  end.

(** ** A scripted world for examples

    Every collaborator answers with a fixed reply; the state of the world
    counts the calls made. *)
Record Replies := {
  tagReply : gostring * option error;
  openReply : option error;
  copyReply : list Byte.byte * option error;
  writeReply : option error;
  envReply : gostring * bool;
  getReply : option github.RepositoryContent * option github.Response
             * option error;
  createReply : option error;
  updateReply : option error
}.

Definition scripted (r : Replies) : System nat :=
  {| git_Clean_Run := fun _ n => (tagReply r, S n);
     os_Open := fun _ n => (openReply r, S n);
     io_Copy := fun _ n => (copyReply r, S n);
     file_Close := fun _ n => (tt, S n);
     ioutil_WriteFile := fun _ _ _ n => (writeReply r, S n);
     os_LookupEnv := fun _ n => (envReply r, S n);
     Repositories_GetContents := fun _ _ _ _ n => (getReply r, S n);
     Repositories_CreateFile := fun _ _ _ _ _ n => (createReply r, S n);
     Repositories_UpdateFile := fun _ _ _ _ _ n => (updateReply r, S n) |}.

Definition bytes_of (s : string) : list Byte.byte :=
  map byte_of_ascii (list_ascii_of_string s).

(** Shorthands for template nodes: a field action, literal text, a line
    break. *)
Definition F (f : string) : template.Node :=
  template.ActionNode (template.Field (str f)).

Definition X (s : string) : template.Node := template.TextNode (str s).

Definition NL : template.Node := template.TextNode [LF].

(** Modelled from the spec: the constant [formulaTemplate] (declared
    outside create.go), as the parser would return it.  The manifest has a
    name declaration, description and homepage, the download URL built from
    owner, repo and tag, the checksum, one statement per dependency and
    per conflict, an install block with one statement per install line, a
    background-service block when a descriptor is present and a caveats
    block when there are caveat lines. *)
Definition formulaTree : list template.Node :=
  [ X "class "; F "Name"; X " < Formula"; NL;
    X "  desc '"; F "Desc"; X "'"; NL;
    X "  homepage '"; F "Homepage"; X "'"; NL;
    X "  url '"; F "DownloadURL"; X "/"; F "Owner"; X "/"; F "Repo";
    X "/releases/download/"; F "Tag"; X "/"; F "File"; X "'"; NL;
    X "  version '"; F "Version"; X "'"; NL;
    X "  sha256 '"; F "SHA256"; X "'"; NL;
    template.RangeNode (template.Field (str "Dependencies"))
      [X "  depends_on '"; template.ActionNode template.Dot; X "'"; NL] [];
    template.RangeNode (template.Field (str "Conflicts"))
      [X "  conflicts_with '"; template.ActionNode template.Dot; X "'"; NL] [];
    X "  def install"; NL;
    template.RangeNode (template.Field (str "Install"))
      [X "    "; template.ActionNode template.Dot; NL] [];
    X "  end"; NL;
    template.IfNode (template.Field (str "Plist"))
      [X "  def plist"; NL; X "    "; F "Plist"; NL; X "  end"; NL] [];
    template.IfNode (template.Field (str "Caveats"))
      [X "  def caveats"; NL;
       template.RangeNode (template.Field (str "Caveats"))
         [X "    "; template.ActionNode template.Dot; NL] [];
       X "  end"; NL] [];
    X "end"; NL ].

Definition parseFormula (name text : gostring) : template.Template + error :=
  inl {| template.name := name; template.Tree := formulaTree |}.

(** A release of [acme/tool-x] at tag [v1.2.3] whose binary holds the five
    bytes of [hello]. *)
Definition acme : Homebrew :=
  {| Name := str "ignored"; Owner := str "acme"; Repo := str "tool-x";
     BrewOwner := str "appscode"; BrewRepo := str "homebrew-tap";
     Author := str "1gtm"; AuthorEmail := str "1gtm@appscode.com";
     Folder := []; Caveats := []; Plist := []; Install := [];
     Dependencies := []; Test := []; Conflicts := [];
     Description := str "A tool"; Homepage := str "https://appscode.com";
     SkipUpload := false |}.

(** The same release under a repo name that is a path with a [..]
    element. *)
Definition dotted : Homebrew :=
  {| Name := str "ignored"; Owner := str "acme"; Repo := str "a/../b";
     BrewOwner := str "appscode"; BrewRepo := str "homebrew-tap";
     Author := str "1gtm"; AuthorEmail := str "1gtm@appscode.com";
     Folder := []; Caveats := []; Plist := []; Install := [];
     Dependencies := []; Test := []; Conflicts := [];
     Description := str "A tool"; Homepage := str "https://appscode.com";
     SkipUpload := false |}.

Definition firstPublish : Replies :=
  {| tagReply := (str "v1.2.3", None);
     openReply := None;
     copyReply := (bytes_of "hello", None);
     writeReply := None;
     envReply := (str "secret", true);
     getReply := (None, Some {| github.StatusCode := 404 |},
                  Some (errorString (str "404 Not Found")));
     createReply := None;
     updateReply := None |}.

Definition withGet (r : Replies)
           (g : option github.RepositoryContent * option github.Response
                * option error) : Replies :=
  {| tagReply := tagReply r; openReply := openReply r;
     copyReply := copyReply r; writeReply := writeReply r;
     envReply := envReply r; getReply := g;
     createReply := createReply r; updateReply := updateReply r |}.

Definition withUpdate (r : Replies) (u : option error) : Replies :=
  {| tagReply := tagReply r; openReply := openReply r;
     copyReply := copyReply r; writeReply := writeReply r;
     envReply := envReply r; getReply := getReply r;
     createReply := createReply r; updateReply := u |}.

(** The file exists remotely with revision token [abc123]. *)
Definition republish : Replies :=
  withGet firstPublish
    (Some {| github.SHA := Some (str "abc123") |},
     Some {| github.StatusCode := 200 |}, None).


(** The existence query fails before any response arrives. *)
Definition unreachable : Replies :=
  withGet firstPublish
    (None, None, Some (errorString (str "dial tcp: i/o timeout"))).

(** The file exists remotely but changed after the query: the update is
    rejected. *)
Definition staleUpdate : Replies :=
  withUpdate republish (Some (errorString (str "409 tool-x.rb does not match"))).

(** How [runCreate] ends once [upload] has ended. *)
Definition afterUpload {W : Type}
           (r : result (option error) * (W * list Event))
  : result unit * (W * list Event) :=
  (match fst r with
   | Returned None => Returned tt
   | Returned (Some e) => Fatal (LogError e)
   | Fatal l => Fatal l
   | Panic => Panic
   end, snd r).

(** The events [upload] adds to the trace: all of the publish stage, on
    the target repository and path, writes with the options of the
    literal. *)
Definition publishEvent (brew : Homebrew) (content path message : gostring)
           (ev : Event) : Prop :=
  match ev with
  | EvLookupEnv key => key = GH_TOOLS_TOKEN
  | EvGetContents _ owner repo p =>
      owner = BrewOwner brew /\ repo = BrewRepo brew /\ p = path
  | EvCreateFile _ owner repo p opts =>
      owner = BrewOwner brew /\ repo = BrewRepo brew /\ p = path
      /\ opts = fileOptions brew content message
  | EvUpdateFile _ owner repo p opts =>
      owner = BrewOwner brew /\ repo = BrewRepo brew /\ p = path
      /\ exists sha, opts = github.set_SHA (fileOptions brew content message) sha
  | _ => False
  end.

(** The shape of every event a run of [runCreate] can leave; [tag] is
    the tag git reported. *)
Definition pipelineEvent (T : unicode.Tables) (formulaTemplate : gostring)
           (Parse : gostring -> gostring -> template.Template + error)
           (brew : Homebrew) (tag : gostring) (ev : Event) : Prop :=
  let b := withDefaults brew in
  match ev with
  | EvGit args => args = tagArgs
  | EvOpen p | EvCopy p | EvClose p =>
      p = str "dist/" ++ Repo brew ++ str "/" ++ Repo brew
          ++ str "-darwin-amd64"
  | EvRender d => exists sum, d = dataLiteral T b (artifactFor b tag) sum
  | EvWriteFile p content perm =>
      p = outputPath b /\ perm = 420
      /\ exists d, doBuildFormula formulaTemplate Parse d = (content, None)
  | _ =>
      SkipUpload brew = false
      /\ exists content,
          publishEvent b content (Name b ++ str ".rb")
                       (commitMessage (artifactFor b tag)) ev
  end.


(* ================================================================== *)
(** * Definitions used to state further properties *)

(** The string begins, or ends, with a white space rune. *)
Definition startsWithSpace (s : gostring) : bool :=
  match s with
  | [] => false
  | c :: _ => unicode.IsSpace c
  end.

Definition endsWithSpace (s : gostring) : bool :=
  match s with
  | [] => false
  | _ => unicode.IsSpace (last s 0)
  end.

(** Every rune of the string is an ASCII character. *)
Definition isASCII (s : gostring) : bool :=
  forallb (fun c => (0 <=? c) && (c <=? unicode.MaxASCII)) s.

Definition isLower (c : rune) : bool := (97 <=? c) && (c <=? 122).

(** The string begins with a rune for which [f] holds. *)
Definition startsWith (f : rune -> bool) (s : gostring) : bool :=
  match s with
  | [] => false
  | c :: _ => f c
  end.

(** Case analysis on the comparisons of a goal about ASCII runes. *)
Ltac ascii_crush :=
  unfold unicode.ToTitle, utf8.encoded, utf8.ValidRune, strings.isSeparator,
    isLower, unicode.MaxASCII, unicode.MaxRune, utf8.RuneError,
    unicode.ReplacementChar, SP, HYPHEN, UNDERSCORE in *;
  repeat (match goal with
          | |- context [?a =? ?b] => destruct (Z.eqb_spec a b)
          | |- context [?a <=? ?b] => destruct (Z.leb_spec a b)
          | |- context [?a <? ?b] => destruct (Z.ltb_spec a b)
          end;
          try (exfalso; lia); cbn [andb orb negb]; cbv beta iota);
  try reflexivity; try lia; try discriminate.


(** The access token an API call was made with. *)
Definition tokenOf (ev : Event) : option gostring :=
  match ev with
  | EvGetContents t _ _ _ | EvCreateFile t _ _ _ _ | EvUpdateFile t _ _ _ _ =>
      Some t
  | _ => None
  end.

(** Owner, repository and path an API call addressed. *)
Definition targetOf (ev : Event) : option (gostring * gostring * gostring) :=
  match ev with
  | EvGetContents _ o r p | EvCreateFile _ o r p _ | EvUpdateFile _ o r p _ =>
      Some (o, r, p)
  | _ => None
  end.

(** The options of a remote write. *)
Definition optionsOf (ev : Event)
  : option github.RepositoryContentFileOptions :=
  match ev with
  | EvCreateFile _ _ _ _ opts | EvUpdateFile _ _ _ _ opts => Some opts
  | _ => None
  end.

(** Scripts that differ from [r] in one reply; a brew that differs in one
    flag. *)
Definition withCopy (r : Replies) (c : list Byte.byte * option error)
  : Replies :=
  {| tagReply := tagReply r; openReply := openReply r;
     copyReply := c; writeReply := writeReply r;
     envReply := envReply r; getReply := getReply r;
     createReply := createReply r; updateReply := updateReply r |}.

Definition withEnv (r : Replies) (e : gostring * bool) : Replies :=
  {| tagReply := tagReply r; openReply := openReply r;
     copyReply := copyReply r; writeReply := writeReply r;
     envReply := e; getReply := getReply r;
     createReply := createReply r; updateReply := updateReply r |}.

Definition withCreate (r : Replies) (c : option error) : Replies :=
  {| tagReply := tagReply r; openReply := openReply r;
     copyReply := copyReply r; writeReply := writeReply r;
     envReply := envReply r; getReply := getReply r;
     createReply := c; updateReply := updateReply r |}.

Definition withSkipUpload (brew : Homebrew) (skip : bool) : Homebrew :=
  {| Name := Name brew; Owner := Owner brew; Repo := Repo brew;
     BrewOwner := BrewOwner brew; BrewRepo := BrewRepo brew;
     Author := Author brew; AuthorEmail := AuthorEmail brew;
     Folder := Folder brew; Caveats := Caveats brew; Plist := Plist brew;
     Install := Install brew; Dependencies := Dependencies brew;
     Test := Test brew; Conflicts := Conflicts brew;
     Description := Description brew; Homepage := Homepage brew;
     SkipUpload := skip |}.

(** [brew.Folder = v] and [brew.Test = v] *)
Definition set_Folder (brew : Homebrew) (v : gostring) : Homebrew :=
  {| Name := Name brew; Owner := Owner brew; Repo := Repo brew;
     BrewOwner := BrewOwner brew; BrewRepo := BrewRepo brew;
     Author := Author brew; AuthorEmail := AuthorEmail brew;
     Folder := v; Caveats := Caveats brew; Plist := Plist brew;
     Install := Install brew; Dependencies := Dependencies brew;
     Test := Test brew; Conflicts := Conflicts brew;
     Description := Description brew; Homepage := Homepage brew;
     SkipUpload := SkipUpload brew |}.

Definition set_Test (brew : Homebrew) (v : gostring) : Homebrew :=
  {| Name := Name brew; Owner := Owner brew; Repo := Repo brew;
     BrewOwner := BrewOwner brew; BrewRepo := BrewRepo brew;
     Author := Author brew; AuthorEmail := AuthorEmail brew;
     Folder := Folder brew; Caveats := Caveats brew; Plist := Plist brew;
     Install := Install brew; Dependencies := Dependencies brew;
     Test := v; Conflicts := Conflicts brew;
     Description := Description brew; Homepage := Homepage brew;
     SkipUpload := SkipUpload brew |}.

(** How a run of [upload] can end: what it returned and the events it
    added, for the token [token] read from the environment. *)
Inductive uploadEnd (brew : Homebrew) (content path message : gostring)
          (token : gostring)
  : result (option error) -> list Event -> Prop :=
| upload_no_token :
    uploadEnd brew content path message token
      (Fatal (LogLine (str "GH_TOOLS_TOKEN env var is not set")))
      [EvLookupEnv GH_TOOLS_TOKEN]
| upload_nil_pointer :
    uploadEnd brew content path message token Panic
      [EvLookupEnv GH_TOOLS_TOKEN;
       EvGetContents token (BrewOwner brew) (BrewRepo brew) path]
| upload_query_failed e :
    uploadEnd brew content path message token (Returned (Some e))
      [EvLookupEnv GH_TOOLS_TOKEN;
       EvGetContents token (BrewOwner brew) (BrewRepo brew) path]
| upload_created e :
    uploadEnd brew content path message token (Returned e)
      [EvLookupEnv GH_TOOLS_TOKEN;
       EvGetContents token (BrewOwner brew) (BrewRepo brew) path;
       EvCreateFile token (BrewOwner brew) (BrewRepo brew) path
                    (fileOptions brew content message)]
| upload_updated e sha :
    uploadEnd brew content path message token (Returned e)
      [EvLookupEnv GH_TOOLS_TOKEN;
       EvGetContents token (BrewOwner brew) (BrewRepo brew) path;
       EvUpdateFile token (BrewOwner brew) (BrewRepo brew) path
                    (github.set_SHA (fileOptions brew content message) sha)].


(** Worlds in which the token is not set, the create is refused, the
    path is a directory of the tap, the server answers the query with
    500, and the artifact cannot be read to its end. *)
Definition noToken : Replies := withEnv firstPublish ([], false).

Definition createRefused : Replies :=
  withCreate firstPublish (Some (errorString (str "422 Unprocessable Entity"))).

Definition directoryAtPath : Replies :=
  withGet firstPublish (None, Some {| github.StatusCode := 200 |}, None).

Definition serverError : Replies :=
  withGet firstPublish
    (None, Some {| github.StatusCode := 500 |},
     Some (errorString (str "500 Internal Server Error"))).

Definition truncatedArtifact : Replies :=
  withCopy firstPublish
    (bytes_of "hel", Some (errorString (str "read: input/output error"))).


(** How [runCreate] ends once [upload] has ended with [r]. *)
Definition afterUploadResult (r : result (option error)) : result unit :=
  match r with
  | Returned None => Returned tt
  | Returned (Some e) => Fatal (LogError e)
  | Fatal l => Fatal l
  | Panic => Panic
  end.

(** What follows the attempt to write the manifest to disk: the write
    failed, the upload is skipped, or [upload] runs. *)
Inductive afterWrite (b : Homebrew) (artifact : Artifact.t) (content : gostring)
  : result unit -> list Event -> Prop :=
| write_failed e : afterWrite b artifact content (Fatal (LogError e)) []
| upload_skipped :
    SkipUpload b = true -> afterWrite b artifact content (Returned tt) []
| upload_ran token r evs :
    SkipUpload b = false ->
    uploadEnd b content (Name b ++ str ".rb") (commitMessage artifact)
              token r evs ->
    afterWrite b artifact content (afterUploadResult r) evs.

(** How a run of [runCreate] can end, one constructor per place where
    it stops: what the process did last and the events of the run.  [tag]
    is the tag git reported. *)
Inductive runEnd (T : unicode.Tables) (formulaTemplate : gostring)
          (Parse : gostring -> gostring -> template.Template + error)
          (brew : Homebrew) (tag : gostring)
  : result unit -> list Event -> Prop :=
| run_tag_failed e :
    runEnd T formulaTemplate Parse brew tag (Fatal (LogError e))
      [EvGit tagArgs]
| run_open_failed e :
    runEnd T formulaTemplate Parse brew tag (Fatal (LogError e))
      [EvGit tagArgs;
       EvOpen (Artifact.Path (artifactFor (withDefaults brew) tag))]
| run_read_failed e :
    runEnd T formulaTemplate Parse brew tag (Fatal (LogError e))
      [EvGit tagArgs;
       EvOpen (Artifact.Path (artifactFor (withDefaults brew) tag));
       EvCopy (Artifact.Path (artifactFor (withDefaults brew) tag));
       EvClose (Artifact.Path (artifactFor (withDefaults brew) tag))]
| run_render_failed contents partial e :
    let d := dataLiteral T (withDefaults brew)
               (artifactFor (withDefaults brew) tag)
               (hex.EncodeToString (sha256.Sum contents)) in
    doBuildFormula formulaTemplate Parse d = (partial, Some e) ->
    runEnd T formulaTemplate Parse brew tag (Fatal (LogError e))
      [EvGit tagArgs;
       EvOpen (Artifact.Path (artifactFor (withDefaults brew) tag));
       EvCopy (Artifact.Path (artifactFor (withDefaults brew) tag));
       EvClose (Artifact.Path (artifactFor (withDefaults brew) tag));
       EvRender d]
| run_written contents content r evs :
    let b := withDefaults brew in
    let d := dataLiteral T b (artifactFor b tag)
               (hex.EncodeToString (sha256.Sum contents)) in
    doBuildFormula formulaTemplate Parse d = (content, None) ->
    afterWrite b (artifactFor b tag) content r evs ->
    runEnd T formulaTemplate Parse brew tag r
      ([EvGit tagArgs;
        EvOpen (Artifact.Path (artifactFor b tag));
        EvCopy (Artifact.Path (artifactFor b tag));
        EvClose (Artifact.Path (artifactFor b tag));
        EvRender d;
        EvWriteFile (outputPath b) content 420] ++ evs).


(** The records a run handed to the renderer. *)
Fixpoint rendered (tr : list Event) : list templateData.t :=
  match tr with
  | [] => []
  | EvRender d :: rest => d :: rendered rest
  | _ :: rest => rendered rest
  end.

(** The order of the stages. *)
Definition stageRank (st : Stage) : nat :=
  match st with
  | TagResolution => 0
  | Digest => 1
  | Render => 2
  | LocalWrite => 3
  | Publish => 4
  end.

Definition stageLe (a b : Event) : Prop :=
  (stageRank (stageOf a) <= stageRank (stageOf b))%nat.


(** The record of the release [acme] at [v1.2.3] and the manifest
    rendered from it. *)
Definition acmeRecord : templateData.t :=
  dataLiteral asciiOnly (withDefaults acme)
    (artifactFor (withDefaults acme) (str "v1.2.3"))
    (str "2cf24dba5fb0a30e26e83b2ac5b9e29e1b161e5c1fa7425e73043362938b9824").

Definition acmeManifest : gostring :=
  fst (doBuildFormula [] parseFormula acmeRecord).


(* ================================================================== *)
(** * cmds/create.go: the command *)

(** What the flag parser found on the command line: for each flag that
    [NewCmdCreate] declares, the value the user gave, if any.  (A flag
    declared with [StringArrayVar] collects the values of all its
    occurrences.) *)
Record CommandLine := {
  flag_owner : option gostring;
  flag_repo : option gostring;
  flag_brew_owner : option gostring;
  flag_brew_repo : option gostring;
  flag_author : option gostring;
  flag_email : option gostring;
  flag_folder : option gostring;
  flag_caveats : option gostring;
  flag_homepage : option gostring;
  flag_description : option gostring;
  flag_skip_upload : option bool;
  flag_dependencies : option (list gostring);
  flag_conflicts : option (list gostring)
}.

(** A flag bound to a variable: the value given, or the default. *)
Definition flagVar {A : Type} (given : option A) (default : A) : A :=
  match given with
  | Some v => v
  | None => default
  end.

(** The variable [brew] of [NewCmdCreate] once the flags are parsed: the
    zero value of [Homebrew] with the thirteen bound fields set. *)
Definition brewOf (cl : CommandLine) : Homebrew :=
  {| Name := [];
     Owner := flagVar (flag_owner cl) [];
     Repo := flagVar (flag_repo cl) [];
     BrewOwner := flagVar (flag_brew_owner cl) (str "appscode");
     BrewRepo := flagVar (flag_brew_repo cl) (str "homebrew-tap");
     Author := flagVar (flag_author cl) (str "1gtm");
     AuthorEmail := flagVar (flag_email cl) (str "1gtm@appscode.com");
     Folder := flagVar (flag_folder cl) [];
     Caveats := flagVar (flag_caveats cl) [];
     Plist := [];
     Install := [];
     Dependencies := flagVar (flag_dependencies cl) [];
     Test := [];
     Conflicts := flagVar (flag_conflicts cl) [];
     Description := flagVar (flag_description cl) [];
     Homepage := flagVar (flag_homepage cl) (str "https://appscode.com");
     SkipUpload := flagVar (flag_skip_upload cl) false |}.

(** The [Run] function of the command: [runCreate(brew)]. *)
Definition NewCmdCreate_Run {W : Type} (sys : System W) (T : unicode.Tables)
           (formulaTemplate : gostring)
           (Parse : gostring -> gostring -> template.Template + error)
           (cl : CommandLine) : M W unit :=
  runCreate sys T formulaTemplate Parse (brewOf cl).

(** The command line
    [--owner acme --repo tool-x --description "A tool"]. *)
Definition acmeCommandLine : CommandLine :=
  {| flag_owner := Some (str "acme"); flag_repo := Some (str "tool-x");
     flag_brew_owner := None; flag_brew_repo := None; flag_author := None;
     flag_email := None; flag_folder := None; flag_caveats := None;
     flag_homepage := None; flag_description := Some (str "A tool");
     flag_skip_upload := None; flag_dependencies := None;
     flag_conflicts := None |}.

(* ================================================================== *)
(** * Running the monad *)

(** Unfolds the monad operations and reduces the state projections. *)
Ltac go_unfold :=
  repeat (progress (unfold bind, call, note, ret, deref, log_Fatal,
                    log_Fatalln;
                    cbn [fst snd negb app sha256.Write sha256.New])).

(** Symbolic execution: case analysis on every reply and test the run
    depends on. *)
Ltac go_cases :=
  repeat (go_unfold; try reflexivity;
          match goal with
          | |- context [negb ?x] => destruct x
          | |- context [match ?x with _ => _ end] =>
              lazymatch x with
              | context [match _ with _ => _ end] => fail
              | _ => destruct x
              end
          end).

(* ================================================================== *)
(** * Facts about the string helpers *)

Lemma returned_pair_inv {A B S : Type} (a a' : A) (b b' : B) (s s' : S) :
  (Returned (a, b), s) = (Returned (a', b'), s') ->
  a = a' /\ b = b' /\ s = s'.
Proof. intros [= -> -> ->]. auto. Qed.


Lemma gostring_eqb_eq (s t : gostring) : gostring_eqb s t = true <-> s = t.
Proof.
  revert t; induction s as [|a s IH]; intros [|b t]; simpl;
    try (split; (discriminate || reflexivity)).
  rewrite andb_true_iff, Z.eqb_eq, IH.
  split; [intros [-> ->]; reflexivity | intros [= -> ->]; auto].
Qed.

Lemma TrimLeftFunc_all (f : rune -> bool) (s : gostring) :
  forallb f s = true -> strings.TrimLeftFunc s f = [].
Proof.
  induction s as [|c t IH]; simpl; [reflexivity|].
  intros H; apply andb_true_iff in H as [Hc Ht].
  rewrite Hc; auto.
Qed.

Lemma TrimSpace_all_space (s : gostring) :
  forallb unicode.IsSpace s = true -> strings.TrimSpace s = [].
Proof.
  intros H; unfold strings.TrimSpace, strings.TrimFunc.
  rewrite TrimLeftFunc_all by assumption; reflexivity.
Qed.

Lemma Split_nonempty (s : gostring) (sep : rune) : strings.Split s sep <> [].
Proof.
  destruct s as [|c t]; simpl; [discriminate|].
  destruct (c =? sep); [discriminate|].
  destruct (strings.Split t sep); discriminate.
Qed.

Lemma Join_cons (x : gostring) (rest : list gostring) (sep : rune) :
  rest <> [] ->
  strings.Join (x :: rest) sep = x ++ sep :: strings.Join rest sep.
Proof. destruct rest; [congruence | reflexivity]. Qed.

Lemma Join_Split (s : gostring) (sep : rune) :
  strings.Join (strings.Split s sep) sep = s.
Proof.
  induction s as [|c t IH]; simpl; [reflexivity|].
  destruct (c =? sep) eqn:E.
  - apply Z.eqb_eq in E; subst c.
    rewrite Join_cons by apply Split_nonempty.
    simpl; rewrite IH; reflexivity.
  - pose proof (Split_nonempty t sep) as Hne.
    destruct (strings.Split t sep) as [|h tl]; [congruence|].
    destruct tl as [|h' tl'].
    + simpl in *; congruence.
    + rewrite Join_cons by discriminate.
      rewrite Join_cons in IH by discriminate.
      rewrite <- IH; reflexivity.
Qed.

Lemma Split_pieces_without_sep (s : gostring) (sep : rune) :
  Forall (fun piece => ~ In sep piece) (strings.Split s sep).
Proof.
  induction s as [|c t IH]; simpl.
  - constructor; [intros [] | constructor].
  - destruct (c =? sep) eqn:E.
    + constructor; [intros [] | assumption].
    + apply Z.eqb_neq in E.
      destruct (strings.Split t sep) as [|h tl]; constructor.
      * intros [H|[]]; congruence.
      * constructor.
      * inversion IH; subst. intros [H|H]; [congruence | contradiction].
      * inversion IH; assumption.
Qed.

(** [split] is [Split] of the trimmed input unless that input is empty. *)
Lemma split_unfold (s : gostring) :
  split s = match strings.TrimSpace s with
            | [] => []
            | t => strings.Split t LF
            end.
Proof.
  unfold split.
  destruct (strings.TrimSpace s) as [|c t] eqn:E; [reflexivity|].
  pose proof (Join_Split (c :: t) LF) as HJ.
  destruct (strings.Split (c :: t) LF) as [|x [|y l]] eqn:ES; try reflexivity.
  simpl. destruct (gostring_eqb x []) eqn:EX; [|reflexivity].
  apply gostring_eqb_eq in EX; subst x. simpl in HJ; discriminate.
Qed.

Lemma Replace_app (a b : gostring) (old : rune) (new : gostring) :
  strings.Replace (a ++ b) old new
  = strings.Replace a old new ++ strings.Replace b old new.
Proof.
  induction a as [|c t IH]; simpl; [reflexivity|].
  rewrite IH, app_assoc; reflexivity.
Qed.

(** The three passes of [formulaNameFor] fused into one. *)
Lemma formulaNameFor_from (T : unicode.Tables) (s : gostring) (prev : rune) :
  strings.Replace
    (strings.Title_from T prev
       (strings.Replace (strings.Replace s HYPHEN [SP]) UNDERSCORE [SP]))
    SP []
  = normalize_from T prev s.
Proof.
  revert prev; induction s as [|c t IH]; intros prev; [reflexivity|].
  cbn [strings.Replace normalize_from].
  rewrite Replace_app.
  destruct (c =? HYPHEN) eqn:E1; [| destruct (c =? UNDERSCORE) eqn:E2];
    cbn [strings.Replace app orb];
    try rewrite E2;
    change (SP =? UNDERSCORE) with false; cbn iota;
    cbn [app strings.Title_from];
    rewrite Replace_app, IH; f_equal.
  all: destruct (_ <? 0); [reflexivity|];
    cbn [strings.Replace app]; destruct (_ =? SP); reflexivity.
Qed.

(* ================================================================== *)
(** * Line splitting *)

(** C4, as stated, fails: the helper trims the input as a whole and never
    looks at the single lines.  On the input ["a \n\n b"] it returns the
    three lines ["a "], [""] and [" b"]: the second is empty, the first and
    the third are not trimmed. *)
Lemma split_keeps_empty_and_untrimmed_lines :
  let s := str "a " ++ [LF; LF] ++ str " b" in
  split s = [str "a "; []; str " b"]
  /\ ~ Forall (fun line => line <> [] /\ strings.TrimSpace line = line)
             (split s).
Proof.
  split; [reflexivity|].
  intros H. inversion H as [|? ? [_ Htrim] _]; subst.
  discriminate Htrim.
Qed.

(** C4, amended: for every input string the helper trims leading and
    trailing whitespace from the input as a whole and returns, in order,
    the pieces between the newlines of what remains: joining the lines with
    newlines gives back the trimmed input, and no line contains a newline.
    The lines themselves are neither trimmed nor filtered.  An empty or
    all-whitespace input yields the empty sequence, the result is never the
    one-element sequence holding the empty string, and ["a\nb\n"] yields
    exactly ["a"; "b"]. *)
Theorem split_lines_of_trimmed_input (s : gostring) :
  strings.Join (split s) LF = strings.TrimSpace s
  /\ Forall (fun line => ~ In LF line) (split s)
  /\ (forallb unicode.IsSpace s = true -> split s = [])
  /\ split s <> [[]]
  /\ split (str "a" ++ [LF] ++ str "b" ++ [LF]) = [str "a"; str "b"].
Proof.
  rewrite split_unfold.
  repeat split.
  - destruct (strings.TrimSpace s) as [|c t]; [reflexivity|].
    apply Join_Split.
  - destruct (strings.TrimSpace s) as [|c t]; [constructor|].
    apply Split_pieces_without_sep.
  - intros H. rewrite TrimSpace_all_space by assumption. reflexivity.
  - destruct (strings.TrimSpace s) as [|c t] eqn:E; [discriminate|].
    intros H. pose proof (Join_Split (c :: t) LF) as HJ.
    rewrite H in HJ. discriminate HJ.
Qed.

Lemma split_lines_of_trimmed_input_witness :
  split (str "  " ++ [LF; 9; 160]) = [].
Proof.
  apply (split_lines_of_trimmed_input (str "  " ++ [LF; 9; 160])).
  reflexivity.
Defined.

(* ================================================================== *)
(** * Name normalization *)

(** C5, as stated, fails: [strings.Title] starts a new word after every
    ASCII rune that is not a letter, a digit or an underscore, not only
    after white space.  For ["foo.bar"] the code yields ["Foo.Bar"], the
    normalizer of the claim ["Foo.bar"]. *)
Lemma formulaNameFor_capitalizes_after_punctuation :
  formulaNameFor asciiOnly (str "foo.bar") = str "Foo.Bar"
  /\ normalize_spec asciiOnly (str "foo.bar") = str "Foo.bar"
  /\ ~ (forall T s, formulaNameFor T s = normalize_spec T s).
Proof.
  split; [reflexivity|]. split; [reflexivity|].
  intros H. specialize (H asciiOnly (str "foo.bar")). discriminate H.
Qed.

Lemma isSeparator_amended (T : unicode.Tables) (r : rune) :
  strings.isSeparator T r = separator_amended T r.
Proof.
  unfold strings.isSeparator, separator_amended, isWordRune,
    unicode.MaxASCII, UNDERSCORE.
  destruct (r <=? 127).
  - destruct ((48 <=? r) && (r <=? 57)), ((97 <=? r) && (r <=? 122)),
      ((65 <=? r) && (r <=? 90)), (r =? 95); reflexivity.
  - destruct (unicode.IsLetter T r), (unicode.IsDigit T r),
      (unicode.IsSpace r); reflexivity.
Qed.

Lemma ToTitle_valid (T : unicode.Tables) (c : rune) :
  titleCaseValid T -> utf8.ValidRune c = true ->
  utf8.ValidRune (unicode.ToTitle T c) = true.
Proof.
  intros HT Hc. unfold unicode.ToTitle.
  destruct (c <=? unicode.MaxASCII); [|apply HT, Hc].
  destruct ((97 <=? c) && (c <=? 122)) eqn:E; [|exact Hc].
  apply andb_true_iff in E as [E1 E2].
  apply Z.leb_le in E1. apply Z.leb_le in E2.
  unfold utf8.ValidRune. apply orb_true_iff. left.
  apply andb_true_iff. split; [apply Z.leb_le | apply Z.ltb_lt]; lia.
Qed.

Lemma encoded_valid (r : rune) :
  utf8.ValidRune r = true -> (r <? 0) = false /\ utf8.encoded r = r.
Proof.
  intros H. unfold utf8.encoded. rewrite H. split; [|reflexivity].
  unfold utf8.ValidRune, unicode.MaxRune in H.
  apply Z.ltb_ge.
  apply orb_true_iff in H as [H|H]; apply andb_true_iff in H as [H1 H2].
  - apply Z.leb_le in H1. exact H1.
  - apply Z.ltb_lt in H1. lia.
Qed.

Lemma Title_from_titleWords (T : unicode.Tables) (s : gostring) (prev : rune) :
  titleCaseValid T -> validString s = true ->
  strings.Title_from T prev s = titleWords T prev s.
Proof.
  intros HT. revert prev.
  induction s as [|c t IH]; intros prev Hs; [reflexivity|].
  cbn [validString forallb] in Hs. apply andb_true_iff in Hs as [Hc Ht].
  cbn [strings.Title_from titleWords]. cbv zeta.
  rewrite <- isSeparator_amended.
  assert (Hr : utf8.ValidRune
                 (if strings.isSeparator T prev then unicode.ToTitle T c
                  else c) = true)
    by (destruct (strings.isSeparator T prev);
        [apply ToTitle_valid; assumption | exact Hc]).
  apply encoded_valid in Hr as [Hneg Henc].
  rewrite Hneg, Henc. cbn [app]. f_equal. apply IH, Ht.
Qed.

Lemma Replace_valid (s : gostring) (old : rune) :
  validString s = true -> validString (strings.Replace s old [SP]) = true.
Proof.
  unfold validString. induction s as [|c t IH]; [reflexivity|].
  cbn [forallb strings.Replace]. intros H.
  apply andb_true_iff in H as [Hc Ht].
  destruct (c =? old); cbn [app forallb]; rewrite (IH Ht).
  - reflexivity.
  - rewrite Hc. reflexivity.
Qed.

(** C5, amended: for every input string the name normalizer replaces every
    ['-'] and ['_'] with a space, title-cases every rune that comes first
    or directly after a separator in the sense of [strings.Title], then
    removes all spaces.  A separator is an ASCII rune that is not a letter,
    a digit or an underscore (so that punctuation starts a word as a space
    does: [foo.bar] becomes [Foo.Bar]), or a rune above ASCII that is white
    space and neither a letter nor a digit; no other rune above ASCII is a
    separator (the middle dot U+00B7 starts no word: the runes
    [97; 183; 98] become [65; 183; 98]).  In particular [my-cool_tool] becomes
    [MyCoolTool], [already] becomes [Already] and the empty string stays
    empty.

    The first part states the code as one pass, for every sequence of runes
    and every table; the third compares it with the three passes of the
    wording, on the runes of a string (valid code points, whose title case
    is a valid code point). *)
Theorem formulaNameFor_one_pass (T : unicode.Tables) (s : gostring) :
  formulaNameFor T s = normalize_from T SP s
  /\ (forall r, strings.isSeparator T r = separator_amended T r)
  /\ (titleCaseValid T -> validString s = true ->
      formulaNameFor T s = normalize_amended T s)
  /\ formulaNameFor T (str "my-cool_tool") = str "MyCoolTool"
  /\ formulaNameFor T (str "foo.bar") = str "Foo.Bar"
  /\ formulaNameFor T [97; 183; 98] = [65; 183; 98]
  /\ formulaNameFor T (str "already") = str "Already"
  /\ formulaNameFor T [] = [].
Proof.
  split; [apply formulaNameFor_from|].
  split; [apply isSeparator_amended|].
  split; [|repeat split; reflexivity].
  intros HT Hs. unfold formulaNameFor, normalize_amended, strings.Title.
  cbv zeta. rewrite Title_from_titleWords; [reflexivity | exact HT |].
  apply Replace_valid, Replace_valid, Hs.
Qed.

Lemma formulaNameFor_one_pass_witness :
  formulaNameFor asciiOnly (str "foo.bar")
  = normalize_amended asciiOnly (str "foo.bar").
Proof.
  destruct (formulaNameFor_one_pass asciiOnly (str "foo.bar"))
    as (_ & _ & H & _).
  apply H.
  - intros r Hr. exact Hr.
  - reflexivity.
Defined.

(* ================================================================== *)
(** * The digest *)

Lemma EncodeToString_length (src : list Byte.byte) :
  List.length (hex.EncodeToString src) = (2 * List.length src)%nat.
Proof. induction src as [|v rest IH]; simpl; [reflexivity | lia]. Qed.

Lemma hextable_digits (v : Byte.byte) :
  isLowerHex (nth (Z.to_nat (Z.shiftr (sha256.u8 v) 4)) hex.hextable 0) = true
  /\ isLowerHex (nth (Z.to_nat (Z.land (sha256.u8 v) 15)) hex.hextable 0) = true.
Proof. destruct v; split; reflexivity. Qed.

Lemma EncodeToString_lower_hex (src : list Byte.byte) :
  forallb isLowerHex (hex.EncodeToString src) = true.
Proof.
  induction src as [|v rest IH]; [reflexivity|].
  cbn [hex.EncodeToString forallb].
  destruct (hextable_digits v) as [-> ->]. exact IH.
Qed.

Lemma Sum_length (d : sha256.digest) : List.length (sha256.Sum d) = 32%nat.
Proof.
  unfold sha256.Sum, sha256.be32.
  repeat rewrite length_app. repeat rewrite length_map. reflexivity.
Qed.

Section DigestFacts.

Context {W : Type} (sys : System W).

(** What [calculate] does from any state, by the replies it gets. *)
Lemma calculate_run (path : gostring) (w : W) (tr : list Event) :
  calculate sys path (w, tr)
  = match os_Open sys path w with
    | (Some e, w1) => (Returned ([], Some e), (w1, tr ++ [EvOpen path]))
    | (None, w1) =>
        let '((written, rerr), w2) := io_Copy sys path w1 in
        let '(_, w3) := file_Close sys path w2 in
        (Returned match rerr with
                  | Some e => ([], Some e)
                  | None => (hex.EncodeToString (sha256.Sum written), None)
                  end,
         (w3, tr ++ [EvOpen path; EvCopy path; EvClose path]))
    end.
Proof.
  unfold calculate; go_unfold.
  destruct (os_Open sys path w) as [[e|] w1]; go_unfold; [reflexivity|].
  destruct (io_Copy sys path w1) as [[written [e|]] w2];
    go_unfold; destruct (file_Close sys path w2) as [u w3];
    cbn [fst snd sha256.Write sha256.New app];
    repeat rewrite <- app_assoc; reflexivity.
Qed.

(** C6: when the file opens and is read to its end, [calculate] returns
    the lower-case hexadecimal SHA-256 of all the bytes read, a string of
    64 lower-case hexadecimal digits, and for an empty file the published
    test vector; when [os.Open] or the copy fails, it returns that error
    with the empty string, never part of a hash. *)
Theorem calculate_sha256_hex (path : gostring) (w : W) :
  (forall e w1,
      os_Open sys path w = (Some e, w1) ->
      outcome (calculate sys path) w = Returned ([], Some e))
  /\ (forall w1 partial e w2,
         os_Open sys path w = (None, w1) ->
         io_Copy sys path w1 = ((partial, Some e), w2) ->
         outcome (calculate sys path) w = Returned ([], Some e))
  /\ (forall w1 contents w2,
         os_Open sys path w = (None, w1) ->
         io_Copy sys path w1 = ((contents, None), w2) ->
         exists sum,
           outcome (calculate sys path) w = Returned (sum, None)
           /\ sum = hex.EncodeToString (sha256.Sum contents)
           /\ List.length sum = 64%nat
           /\ forallb isLowerHex sum = true
           /\ (contents = [] ->
               sum = str "e3b0c44298fc1c149afbf4c8996fb92427ae41e4649b934ca495991b7852b855")).
Proof.
  unfold outcome. rewrite calculate_run.
  repeat split.
  - intros e w1 ->. reflexivity.
  - intros w1 partial e w2 -> ->.
    destruct (file_Close sys path w2); reflexivity.
  - intros w1 contents w2 -> ->.
    exists (hex.EncodeToString (sha256.Sum contents)).
    destruct (file_Close sys path w2).
    split; [reflexivity|]. split; [reflexivity|].
    split; [|split].
    + rewrite EncodeToString_length, Sum_length. reflexivity.
    + apply EncodeToString_lower_hex.
    + intros ->. vm_compute. reflexivity.
Qed.

End DigestFacts.

Lemma calculate_sha256_hex_witness :
  outcome (calculate (scripted firstPublish) (str "dist/tool-x/tool-x-darwin-amd64")) 0%nat
  = Returned (str "2cf24dba5fb0a30e26e83b2ac5b9e29e1b161e5c1fa7425e73043362938b9824", None).
Proof.
  destruct (calculate_sha256_hex (scripted firstPublish)
              (str "dist/tool-x/tool-x-darwin-amd64") 0%nat)
    as (_ & _ & H).
  destruct (H 1%nat (bytes_of "hello") 2%nat eq_refl eq_refl)
    as (sum & Hrun & Hsum & _).
  rewrite Hrun, Hsum. vm_compute. reflexivity.
Defined.

(* ================================================================== *)
(** * The publish client *)

Section PublishFacts.

Context {W : Type} (sys : System W).
Context (brew : Homebrew) (content path message : gostring).

Let owner := BrewOwner brew.
Let repo := BrewRepo brew.
Let options := fileOptions brew content message.

(** What [upload] does from any state, by the replies it gets. *)
Lemma upload_run (w : W) (tr : list Event) :
  upload sys brew content path message (w, tr)
  = let '((token, found), w1) := os_LookupEnv sys GH_TOOLS_TOKEN w in
    let tr1 := tr ++ [EvLookupEnv GH_TOOLS_TOKEN] in
    if negb found
    then (Fatal (LogLine (str "GH_TOOLS_TOKEN env var is not set")), (w1, tr1))
    else
      let '((file, res, err), w2) :=
        Repositories_GetContents sys token owner repo path w1 in
      let tr2 := tr1 ++ [EvGetContents token owner repo path] in
      match res with
      | None => (Panic, (w2, tr2))
      | Some r =>
          if github.StatusCode r =? 404 then
            let '(e, w3) :=
              Repositories_CreateFile sys token owner repo path options w2 in
            (Returned e, (w3, tr2 ++ [EvCreateFile token owner repo path options]))
          else
            match err, file with
            | Some e, _ => (Returned (Some e), (w2, tr2))
            | None, None => (Panic, (w2, tr2))
            | None, Some f =>
                let options' := github.set_SHA options (github.SHA f) in
                let '(e, w3) :=
                  Repositories_UpdateFile sys token owner repo path options' w2 in
                (Returned e,
                 (w3, tr2 ++ [EvUpdateFile token owner repo path options']))
            end
      end.
Proof.
  unfold upload; subst owner repo options.
  go_cases.
Qed.

(** C1: when the existence query answers 404, [upload] issues exactly
    one create, with the options of the literal (no revision token), and
    no update; when the query succeeds and returns a file whose revision
    token is [github.SHA f], it issues exactly one update carrying that
    token and no create. *)
Theorem upload_creates_or_updates
        (w w1 w2 : W) (token : gostring)
        (file : option github.RepositoryContent)
        (res : option github.Response) (err : option error) :
  os_LookupEnv sys GH_TOOLS_TOKEN w = ((token, true), w1) ->
  Repositories_GetContents sys token owner repo path w1
  = ((file, res, err), w2) ->
  (forall r,
      res = Some r -> github.StatusCode r = 404 ->
      remoteWrites (trace (upload sys brew content path message) w)
      = [EvCreateFile token owner repo path options]
      /\ github.FileSHA options = None)
  /\ (forall r f,
         err = None -> res = Some r -> github.StatusCode r <> 404 ->
         file = Some f ->
         remoteWrites (trace (upload sys brew content path message) w)
         = [EvUpdateFile token owner repo path
                         (github.set_SHA options (github.SHA f))]
         /\ github.FileSHA (github.set_SHA options (github.SHA f))
            = github.SHA f).
Proof.
  intros Henv Hget. unfold trace. rewrite upload_run.
  rewrite Henv. cbn [negb]. fold owner repo. rewrite Hget.
  split.
  - intros r -> Hr. rewrite Hr. cbn [Z.eqb Pos.eqb].
    destruct (Repositories_CreateFile sys token owner repo path options w2).
    split; reflexivity.
  - intros r f -> -> Hr ->.
    apply Z.eqb_neq in Hr. rewrite Hr.
    destruct (Repositories_UpdateFile sys token owner repo path
                (github.set_SHA options (github.SHA f)) w2).
    split; reflexivity.
Qed.

(** X10: when the existence query fails with a response other than 404,
    [upload] returns that error and nothing is written. *)
Lemma upload_returns_query_error
      (w w1 w2 : W) (token : gostring)
      (file : option github.RepositoryContent)
      (r : github.Response) (e : error) :
  os_LookupEnv sys GH_TOOLS_TOKEN w = ((token, true), w1) ->
  Repositories_GetContents sys token owner repo path w1
  = ((file, Some r, Some e), w2) ->
  github.StatusCode r <> 404 ->
  outcome (upload sys brew content path message) w = Returned (Some e)
  /\ remoteWrites (trace (upload sys brew content path message) w) = [].
Proof.
  intros Henv Hget Hr. unfold outcome, trace. rewrite upload_run.
  rewrite Henv. cbn [negb]. fold owner repo. rewrite Hget.
  apply Z.eqb_neq in Hr. rewrite Hr. split; reflexivity.
Qed.

(** C2 fails on the code when the existence query fails without any
    response (a transport error: go-github then returns a nil
    [*Response] with the error).  [res.StatusCode] dereferences the nil
    pointer: [upload] panics instead of returning the error.  Nothing is
    written. *)
Theorem upload_panics_on_error_without_response
        (w w1 w2 : W) (token : gostring)
        (file : option github.RepositoryContent) (e : error) :
  os_LookupEnv sys GH_TOOLS_TOKEN w = ((token, true), w1) ->
  Repositories_GetContents sys token owner repo path w1
  = ((file, None, Some e), w2) ->
  outcome (upload sys brew content path message) w = Panic
  /\ outcome (upload sys brew content path message) w <> Returned (Some e)
  /\ remoteWrites (trace (upload sys brew content path message) w) = [].
Proof.
  intros Henv Hget. unfold outcome, trace. rewrite upload_run.
  rewrite Henv. cbn [negb]. fold owner repo. rewrite Hget.
  repeat split; [discriminate].
Qed.

(** C3: when the file exists and the store rejects the update with an
    error [e] (the revision token is stale), [upload] returns [e], the
    update is the only write it attempted, and the run ends in the state
    the rejected update left. *)
Theorem upload_surfaces_rejected_update
        (w w1 w2 w3 : W) (token : gostring)
        (f : github.RepositoryContent) (r : github.Response) (e : error) :
  os_LookupEnv sys GH_TOOLS_TOKEN w = ((token, true), w1) ->
  Repositories_GetContents sys token owner repo path w1
  = ((Some f, Some r, None), w2) ->
  github.StatusCode r <> 404 ->
  Repositories_UpdateFile sys token owner repo path
    (github.set_SHA options (github.SHA f)) w2 = (Some e, w3) ->
  upload sys brew content path message (w, [])
  = (Returned (Some e),
     (w3, [EvLookupEnv GH_TOOLS_TOKEN;
           EvGetContents token owner repo path;
           EvUpdateFile token owner repo path
                        (github.set_SHA options (github.SHA f))]))
  /\ remoteWrites (trace (upload sys brew content path message) w)
     = [EvUpdateFile token owner repo path
                     (github.set_SHA options (github.SHA f))].
Proof.
  intros Henv Hget Hr Hupd. unfold trace. rewrite upload_run.
  rewrite Henv. cbn [negb]. fold owner repo. rewrite Hget.
  apply Z.eqb_neq in Hr. rewrite Hr.
  fold options. rewrite Hupd. split; reflexivity.
Qed.

End PublishFacts.

Lemma upload_creates_or_updates_witness :
  let content := str "class ToolX < Formula" in
  let path := str "tool-x.rb" in
  let message := str "Brew formula update" in
  let options := fileOptions acme content message in
  remoteWrites (trace (upload (scripted firstPublish) acme content path message) 0%nat)
  = [EvCreateFile (str "secret") (str "appscode") (str "homebrew-tap") path options]
  /\ remoteWrites (trace (upload (scripted republish) acme content path message) 0%nat)
     = [EvUpdateFile (str "secret") (str "appscode") (str "homebrew-tap") path
                     (github.set_SHA options (Some (str "abc123")))].
Proof.
  intros content path message options. split.
  - apply (proj1 (upload_creates_or_updates (scripted firstPublish) acme
                    content path message 0%nat 1%nat 2%nat (str "secret")
                    None (Some {| github.StatusCode := 404 |})
                    (Some (errorString (str "404 Not Found")))
                    eq_refl eq_refl)
             {| github.StatusCode := 404 |} eq_refl eq_refl).
  - apply (proj2 (upload_creates_or_updates (scripted republish) acme
                    content path message 0%nat 1%nat 2%nat (str "secret")
                    (Some {| github.SHA := Some (str "abc123") |})
                    (Some {| github.StatusCode := 200 |}) None
                    eq_refl eq_refl)
             {| github.StatusCode := 200 |}
             {| github.SHA := Some (str "abc123") |} eq_refl eq_refl).
    + simpl. lia.
    + reflexivity.
Defined.

Lemma upload_panics_on_error_without_response_witness :
  outcome (upload (scripted unreachable) acme (str "class ToolX < Formula")
                  (str "tool-x.rb") (str "Brew formula update")) 0%nat
  = Panic.
Proof.
  apply (upload_panics_on_error_without_response (scripted unreachable) acme
           (str "class ToolX < Formula") (str "tool-x.rb")
           (str "Brew formula update") 0%nat 1%nat 2%nat (str "secret") None
           (errorString (str "dial tcp: i/o timeout")) eq_refl eq_refl).
Defined.

Lemma upload_surfaces_rejected_update_witness :
  outcome (upload (scripted staleUpdate) acme (str "class ToolX < Formula")
                  (str "tool-x.rb") (str "Brew formula update")) 0%nat
  = Returned (Some (errorString (str "409 tool-x.rb does not match"))).
Proof.
  unfold outcome.
  rewrite (proj1 (upload_surfaces_rejected_update (scripted staleUpdate) acme
                    (str "class ToolX < Formula") (str "tool-x.rb")
                    (str "Brew formula update") 0%nat 1%nat 2%nat 3%nat
                    (str "secret") {| github.SHA := Some (str "abc123") |}
                    {| github.StatusCode := 200 |}
                    (errorString (str "409 tool-x.rb does not match"))
                    eq_refl eq_refl ltac:(simpl; lia) eq_refl)).
  reflexivity.
Defined.

(* ================================================================== *)
(** * The pipeline *)

Section PipelineFacts.

Context {W : Type} (sys : System W).
Context (T : unicode.Tables).
Context (formulaTemplate : gostring).
Context (Parse : gostring -> gostring -> template.Template + error).

(** What [runCreate] does from a fresh process, by the replies it
    gets: one line per way to stop. *)
Lemma runCreate_run (brew : Homebrew) (w : W) :
  runCreate sys T formulaTemplate Parse brew (w, [])
  = let b := withDefaults brew in
    let '((tag, terr), w1) := git_Clean_Run sys tagArgs w in
    let tr1 := [EvGit tagArgs] in
    match terr with
    | Some e => (Fatal (LogError e), (w1, tr1))
    | None =>
        let artifact := artifactFor b tag in
        let p := Artifact.Path artifact in
        match os_Open sys p w1 with
        | (Some e, w2) => (Fatal (LogError e), (w2, tr1 ++ [EvOpen p]))
        | (None, w2) =>
            let '((contents, rerr), w3) := io_Copy sys p w2 in
            let '(_, w4) := file_Close sys p w3 in
            let tr4 := tr1 ++ [EvOpen p; EvCopy p; EvClose p] in
            match rerr with
            | Some e => (Fatal (LogError e), (w4, tr4))
            | None =>
                let d := dataLiteral T b artifact
                           (hex.EncodeToString (sha256.Sum contents)) in
                let tr5 := tr4 ++ [EvRender d] in
                match doBuildFormula formulaTemplate Parse d with
                | (_, Some e) => (Fatal (LogError e), (w4, tr5))
                | (content, None) =>
                    let '(werr, w5) :=
                      ioutil_WriteFile sys (outputPath b) content 420 w4 in
                    let tr6 := tr5 ++ [EvWriteFile (outputPath b) content 420] in
                    match werr with
                    | Some e => (Fatal (LogError e), (w5, tr6))
                    | None =>
                        if SkipUpload brew then (Returned tt, (w5, tr6))
                        else afterUpload
                               (upload sys b content (Name b ++ str ".rb")
                                       (commitMessage artifact) (w5, tr6))
                    end
                end
            end
        end
    end.
Proof.
  unfold runCreate, buildFormula, dataFor, calculate, afterUpload.
  change (SkipUpload (withDefaults brew)) with (SkipUpload brew).
  go_cases.
Qed.

Lemma upload_events (brew : Homebrew) (content path message : gostring)
      (w : W) (tr : list Event) :
  exists evs,
    snd (snd (upload sys brew content path message (w, tr))) = tr ++ evs
    /\ Forall (publishEvent brew content path message) evs.
Proof.
  rewrite upload_run.
  destruct (os_LookupEnv sys GH_TOOLS_TOKEN w) as [[token found] w1].
  destruct found; cbn [negb fst snd].
  2: { exists [EvLookupEnv GH_TOOLS_TOKEN]. split; [reflexivity|].
       repeat constructor. }
  destruct (Repositories_GetContents sys token (BrewOwner brew)
              (BrewRepo brew) path w1) as [[[file res] err] w2].
  assert (Hpre : Forall (publishEvent brew content path message)
                   [EvLookupEnv GH_TOOLS_TOKEN;
                    EvGetContents token (BrewOwner brew) (BrewRepo brew) path])
    by (repeat constructor).
  destruct res as [r|].
  2: { eexists. rewrite <- app_assoc. split; [reflexivity | exact Hpre]. }
  destruct (github.StatusCode r =? 404).
  - destruct (Repositories_CreateFile sys token (BrewOwner brew)
                (BrewRepo brew) path (fileOptions brew content message) w2).
    eexists. cbn [snd]. rewrite <- !app_assoc. split; [reflexivity|].
    cbn [app]. repeat constructor.
  - destruct err as [e|].
    { eexists. rewrite <- app_assoc. split; [reflexivity | exact Hpre]. }
    destruct file as [f|].
    2: { eexists. rewrite <- app_assoc. split; [reflexivity | exact Hpre]. }
    destruct (Repositories_UpdateFile sys token (BrewOwner brew)
                (BrewRepo brew) path
                (github.set_SHA (fileOptions brew content message)
                                (github.SHA f)) w2).
    eexists. cbn [snd]. rewrite <- !app_assoc. split; [reflexivity|].
    cbn [app]. repeat constructor. eexists; reflexivity.
Qed.

Lemma runCreate_events (brew : Homebrew) (w : W) :
  Forall (pipelineEvent T formulaTemplate Parse brew
                        (fst (fst (git_Clean_Run sys tagArgs w))))
         (trace (runCreate sys T formulaTemplate Parse brew) w).
Proof.
  unfold trace. rewrite runCreate_run. cbv zeta.
  destruct (git_Clean_Run sys tagArgs w) as [[tag [e|]] w1]; cbn [fst].
  { repeat constructor. }
  destruct (os_Open sys _ w1) as [[e|] w2].
  { repeat constructor. }
  destruct (io_Copy sys _ w2) as [[contents rerr] w3].
  destruct (file_Close sys _ w3) as [u w4].
  destruct rerr as [e|].
  { repeat constructor. }
  assert (Hd : pipelineEvent T formulaTemplate Parse brew tag
                 (EvRender (dataLiteral T (withDefaults brew)
                              (artifactFor (withDefaults brew) tag)
                              (hex.EncodeToString (sha256.Sum contents)))))
    by (eexists; reflexivity).
  destruct (doBuildFormula formulaTemplate Parse _) as [content [e|]] eqn:Hr.
  { cbn [snd app]. repeat constructor. exact Hd. }
  assert (Hw : pipelineEvent T formulaTemplate Parse brew tag
                 (EvWriteFile (outputPath (withDefaults brew)) content 420))
    by (split; [reflexivity | split; [reflexivity | eexists; exact Hr]]).
  assert (Hpre :
            Forall (pipelineEvent T formulaTemplate Parse brew tag)
              ([EvGit tagArgs] ++
               [EvOpen (Artifact.Path (artifactFor (withDefaults brew) tag));
                EvCopy (Artifact.Path (artifactFor (withDefaults brew) tag));
                EvClose (Artifact.Path (artifactFor (withDefaults brew) tag))])).
  { repeat constructor. }
  destruct (ioutil_WriteFile sys _ content 420 w4) as [[e|] w5].
  { cbn [snd]. repeat (apply Forall_app; split); auto; repeat constructor; assumption. }
  destruct (SkipUpload brew) eqn:Hskip.
  { cbn [snd]. repeat (apply Forall_app; split); auto; repeat constructor; assumption. }
  unfold afterUpload. cbn [snd].
  match goal with
  | |- context [upload sys ?b ?c ?p ?m (?w, ?tr)] =>
      destruct (upload_events b c p m w tr) as (evs & -> & Hevs)
  end.
  repeat (apply Forall_app; split); auto;
    try (repeat constructor; assumption).
  eapply Forall_impl; [|exact Hevs].
  intros ev Hev. unfold pipelineEvent.
  destruct ev; try contradiction; (split; [exact Hskip|]);
    exists content; exact Hev.
Qed.

(** The only write to disk carries what [doBuildFormula] made of the
    only record rendered. *)
Lemma runCreate_writes_rendered (brew : Homebrew) (w : W)
      (d : templateData.t) (p content : gostring) (perm : Z) :
  In (EvRender d) (trace (runCreate sys T formulaTemplate Parse brew) w) ->
  In (EvWriteFile p content perm)
     (trace (runCreate sys T formulaTemplate Parse brew) w) ->
  doBuildFormula formulaTemplate Parse d = (content, None).
Proof.
  unfold trace. rewrite runCreate_run. cbv zeta.
  destruct (git_Clean_Run sys tagArgs w) as [[tag [e|]] w1].
  { cbn [snd app In]. intuition discriminate. }
  destruct (os_Open sys _ w1) as [[e|] w2].
  { cbn [snd app In]. intuition discriminate. }
  destruct (io_Copy sys _ w2) as [[contents rerr] w3].
  destruct (file_Close sys _ w3) as [u w4].
  destruct rerr as [e|].
  { cbn [snd app In]. intuition discriminate. }
  set (d0 := dataLiteral T _ _ _). clearbody d0.
  destruct (doBuildFormula formulaTemplate Parse d0) as [content' [e|]] eqn:Hr.
  { cbn [snd app In]. intuition discriminate. }
  assert (Hpre : forall tr,
             tr = [EvGit tagArgs;
                   EvOpen (Artifact.Path (artifactFor (withDefaults brew) tag));
                   EvCopy (Artifact.Path (artifactFor (withDefaults brew) tag));
                   EvClose (Artifact.Path (artifactFor (withDefaults brew) tag));
                   EvRender d0;
                   EvWriteFile (outputPath (withDefaults brew)) content' 420] ->
             In (EvRender d) tr -> In (EvWriteFile p content perm) tr ->
             doBuildFormula formulaTemplate Parse d = (content, None)).
  { intros tr -> H1 H2. cbn [In] in H1, H2.
    repeat (destruct H1 as [H1|H1]; try discriminate H1); try contradiction.
    repeat (destruct H2 as [H2|H2]; try discriminate H2); try contradiction.
    injection H1 as <-. injection H2 as _ <- _. exact Hr. }
  destruct (ioutil_WriteFile sys _ content' 420 w4) as [[e|] w5].
  { apply Hpre. reflexivity. }
  destruct (SkipUpload brew).
  { apply Hpre. reflexivity. }
  unfold afterUpload. cbn [snd].
  match goal with
  | |- context [upload sys ?b ?c ?p ?m (?w, ?tr)] =>
      destruct (upload_events b c p m w tr) as (evs & -> & Hevs)
  end.
  rewrite Forall_forall in Hevs.
  intros H1 H2.
  apply in_app_or in H1 as [H1|H1]; [|apply Hevs in H1; contradiction].
  apply in_app_or in H2 as [H2|H2]; [|apply Hevs in H2; contradiction].
  eapply Hpre; [reflexivity | exact H1 | exact H2].
Qed.

End PipelineFacts.

(* ================================================================== *)
(** * The output path *)

Lemma element_whole (f : gostring) :
  ~ In SLASH f -> filepath.element f = f /\ filepath.afterElement f = [].
Proof.
  induction f as [|c t IH]; intros H; [split; reflexivity|].
  cbn [filepath.element filepath.afterElement].
  unfold filepath.IsPathSeparator.
  destruct (Z.eqb_spec c SLASH) as [->|Hc]; [exfalso; apply H; left; reflexivity|].
  destruct IH as [-> ->]; [intros Hin; apply H; right; exact Hin|].
  split; reflexivity.
Qed.

Lemma cleanLoop_element (n : nat) (f out : list rune) (dotdot : nat) :
  ~ In SLASH f -> (3 <= List.length f)%nat -> out <> [] ->
  filepath.cleanLoop (S n) false f out dotdot = rev f ++ SLASH :: out.
Proof.
  intros Hf Hlen Hout.
  destruct (element_whole f Hf) as [He Ha].
  destruct f as [|c [|c1 [|c2 rest]]]; cbn [List.length] in Hlen; try lia.
  assert (Hc : filepath.IsPathSeparator c = false)
    by (apply Z.eqb_neq; intros ->; apply Hf; left; reflexivity).
  assert (Hc1 : filepath.IsPathSeparator c1 = false)
    by (apply Z.eqb_neq; intros ->; apply Hf; right; left; reflexivity).
  assert (Hc2 : filepath.IsPathSeparator c2 = false)
    by (apply Z.eqb_neq; intros ->; apply Hf; right; right; left; reflexivity).
  cbn [filepath.cleanLoop filepath.endOfElement].
  rewrite Hc, Hc1, Hc2, !andb_false_r. cbn [andb orb negb].
  rewrite He, Ha.
  destruct out as [|o out']; [congruence|]. cbn [List.length Nat.eqb negb].
  destruct n; reflexivity.
Qed.

Lemma cleanLoop_dist (n : nat) (f : gostring) :
  filepath.cleanLoop (S (S (S n))) false (str "dist/" ++ SLASH :: f) [] 0
  = filepath.cleanLoop n false f (rev (str "dist")) 0.
Proof. reflexivity. Qed.

Lemma Join_dist (f : gostring) :
  ~ In SLASH f -> (3 <= List.length f)%nat ->
  filepath.Join [str "dist/"; f] = str "dist/" ++ f.
Proof.
  intros Hf Hlen.
  change (filepath.Join [str "dist/"; f])
    with (let out := filepath.cleanLoop (S (S (S (S (S (S (List.length f)))))))
                       false (str "dist/" ++ SLASH :: f) [] 0 in
          match out with
          | [] => [DOT]
          | _ => rev out
          end).
  rewrite cleanLoop_dist, cleanLoop_element by (assumption || discriminate).
  cbv zeta.
  destruct (rev f ++ SLASH :: rev (str "dist")) eqn:E.
  - destruct (rev f); discriminate.
  - rewrite <- E, rev_app_distr. rewrite (rev_involutive f). reflexivity.
Qed.

Lemma afterElement_length (p : gostring) :
  (List.length (filepath.afterElement p) <= List.length p)%nat.
Proof.
  induction p as [|c t IH]; cbn [filepath.afterElement List.length]; [lia|].
  destruct (filepath.IsPathSeparator c); cbn [List.length]; lia.
Qed.

(** The loop of [Clean] is over once [len(path)] iterations have run: more
    fuel does not change its result. *)
Lemma cleanLoop_enough (n m : nat) (rooted : bool) (p : gostring)
      (out : list rune) (dotdot : nat) :
  (List.length p <= n)%nat -> (List.length p <= m)%nat ->
  filepath.cleanLoop n rooted p out dotdot
  = filepath.cleanLoop m rooted p out dotdot.
Proof.
  revert m p out dotdot.
  induction n as [|n IH]; intros m p out dotdot Hn Hm.
  - destruct p; [|cbn [List.length] in Hn; lia]. destruct m; reflexivity.
  - destruct m as [|m].
    { destruct p; [reflexivity | cbn [List.length] in Hm; lia]. }
    destruct p as [|c p1]; [reflexivity|].
    cbn [List.length] in Hn, Hm.
    cbn [filepath.cleanLoop].
    assert (Hskip : (List.length (skipn 1 p1) <= List.length p1)%nat)
      by (destruct p1; cbn [skipn List.length]; lia).
    pose proof (afterElement_length p1) as Hafter.
    destruct (filepath.IsPathSeparator c) eqn:Hc; [apply IH; lia|].
    destruct ((c =? DOT) && filepath.endOfElement p1); [apply IH; lia|].
    destruct ((c =? DOT) && _).
    + destruct (Nat.ltb dotdot (List.length out)); [apply IH; lia|].
      destruct (negb rooted); apply IH; lia.
    + cbn [filepath.afterElement]. rewrite Hc. apply IH; lia.
Qed.

Lemma in_writtenPaths (p : gostring) (tr : list Event) :
  In p (writtenPaths tr) ->
  exists content perm, In (EvWriteFile p content perm) tr.
Proof.
  induction tr as [|ev rest IH]; [intros []|].
  destruct ev; cbn [writtenPaths]; intros H;
    try (destruct (IH H) as (c & m & Hin); exists c, m; right; exact Hin).
  destruct H as [->|H].
  - do 2 eexists. left. reflexivity.
  - destruct (IH H) as (c & m & Hin). exists c, m. right. exact Hin.
Qed.

Lemma split_nonempty (c : rune) (t : gostring) :
  unicode.IsSpace c = false -> split (c :: t) <> [].
Proof.
  intros Hc. rewrite split_unfold.
  unfold strings.TrimSpace, strings.TrimFunc.
  cbn [strings.TrimLeftFunc]. rewrite Hc.
  cbn [strings.TrimRightFunc]. rewrite Hc.
  destruct (strings.TrimRightFunc t unicode.IsSpace); apply Split_nonempty.
Qed.

(* ================================================================== *)
(** * Properties of the pipeline *)

Section PipelineClaims.

Context {W : Type} (sys : System W).
Context (T : unicode.Tables).
Context (formulaTemplate : gostring).
Context (Parse : gostring -> gostring -> template.Template + error).

(** C9: in every run, a record handed to the renderer has at least one
    install line: the lines of [bin.install <repo>-darwin-amd64], which
    [runCreate] synthesizes whatever the caller put in [Install]. *)
Theorem runCreate_install_lines_nonempty
        (brew : Homebrew) (w : W) (d : templateData.t) :
  In (EvRender d) (trace (runCreate sys T formulaTemplate Parse brew) w) ->
  templateData.Install d <> []
  /\ templateData.Install d
     = split (str "bin.install " ++ Repo brew ++ str "-darwin-amd64")
  /\ forall install,
      runCreate sys T formulaTemplate Parse (set_Install brew install)
      = runCreate sys T formulaTemplate Parse brew.
Proof.
  intros Hin.
  pose proof (runCreate_events sys T formulaTemplate Parse brew w) as Hev.
  rewrite Forall_forall in Hev. apply Hev in Hin as [sum ->].
  split; [|split; [reflexivity | intros; reflexivity]].
  apply split_nonempty. reflexivity.
Qed.

(** C10, amended: whatever package name the caller supplies is
    overwritten with the repo name; the formula name is
    [formulaNameFor] of the repo name, the artifact is
    [<repo>-darwin-amd64] read from [dist/<repo>/<repo>-darwin-amd64],
    the download base URL is [https://github.com], and the local output
    file is [filepath.Join("dist/", <repo>.rb)], the cleaned path, which
    is [dist/<repo>.rb] whenever the repo name contains no ['/']. *)
Theorem runCreate_identity_fields (brew : Homebrew) (w : W) :
  let tr := trace (runCreate sys T formulaTemplate Parse brew) w in
  (forall name,
      runCreate sys T formulaTemplate Parse (set_Name brew name)
      = runCreate sys T formulaTemplate Parse brew)
  /\ (forall d,
         In (EvRender d) tr ->
         templateData.Name d = formulaNameFor T (Repo brew)
         /\ templateData.File d = Repo brew ++ str "-darwin-amd64"
         /\ templateData.DownloadURL d = str "https://github.com")
  /\ (forall p,
         In (EvOpen p) tr ->
         p = str "dist/" ++ Repo brew ++ str "/" ++ Repo brew
             ++ str "-darwin-amd64")
  /\ (forall p,
         In p (writtenPaths tr) ->
         p = filepath.Join [str "dist/"; Repo brew ++ str ".rb"]
         /\ (~ In SLASH (Repo brew) ->
             p = str "dist/" ++ Repo brew ++ str ".rb")).
Proof.
  intros tr.
  pose proof (runCreate_events sys T formulaTemplate Parse brew w) as Hev.
  rewrite Forall_forall in Hev. fold tr in Hev.
  split; [intros; reflexivity|].
  split; [|split].
  - intros d Hin. apply Hev in Hin as [sum ->]. repeat split.
  - intros p Hin. apply Hev in Hin. exact Hin.
  - intros p Hin. apply in_writtenPaths in Hin as (content & perm & Hin).
    apply Hev in Hin as (-> & _ & _).
    split; [reflexivity|].
    intros Hrepo. apply Join_dist.
    + intros Hin. apply in_app_or in Hin as [Hin|Hin]; [contradiction|].
      cbn in Hin. unfold SLASH in Hin. intuition discriminate.
    + rewrite length_app. cbn. lia.
Qed.

(** C8: the stages run in the order tag resolution, digest, render,
    local write, publish.  A failing stage ends the run with
    [log.Fatal] in the very state that stage left, so that no later
    stage is attempted.  Once rendering has succeeded the manifest is
    written to the local output path, whatever [SkipUpload] says;
    [upload] runs after a successful write exactly when [SkipUpload] is
    false, with the commit message built from the artifact name and the
    tag; every event of the publish stage belongs to such a run and
    every remote write carries that message. *)
Theorem runCreate_fail_fast (brew : Homebrew) (w : W) :
  let b := withDefaults brew in
  let run := runCreate sys T formulaTemplate Parse brew (w, []) in
  forall tag terr w1,
    git_Clean_Run sys tagArgs w = ((tag, terr), w1) ->
    let s1 := (w1, [EvGit tagArgs]) in
    let artifact := artifactFor b tag in
    let message :=
      str "Brew formula update for " ++ Artifact.Name artifact
      ++ str " version " ++ tag in
    (* tag resolution fails *)
    (forall e, terr = Some e -> run = (Fatal (LogError e), s1))
    /\ (terr = None ->
        forall sum derr s2,
          calculate sys (Artifact.Path artifact) s1
          = (Returned (sum, derr), s2) ->
          (* the digest fails *)
          (forall e, derr = Some e -> run = (Fatal (LogError e), s2))
          /\ (derr = None ->
              let d := dataLiteral T b artifact sum in
              let s3 := (fst s2, snd s2 ++ [EvRender d]) in
              forall content rerr,
                doBuildFormula formulaTemplate Parse d = (content, rerr) ->
                (* rendering fails *)
                (forall e, rerr = Some e -> run = (Fatal (LogError e), s3))
                /\ (rerr = None ->
                    forall werr w4,
                      ioutil_WriteFile sys (outputPath b) content 420 (fst s3)
                      = (werr, w4) ->
                      let s4 :=
                        (w4, snd s3 ++ [EvWriteFile (outputPath b) content 420]) in
                      (* the local write fails *)
                      (forall e, werr = Some e ->
                                 run = (Fatal (LogError e), s4))
                      /\ (werr = None ->
                          (SkipUpload brew = true -> run = (Returned tt, s4))
                          /\ (SkipUpload brew = false ->
                              forall r s5,
                                upload sys b content (Repo brew ++ str ".rb")
                                       message s4 = (r, s5) ->
                                run = (match r with
                                       | Returned None => Returned tt
                                       | Returned (Some e) =>
                                           Fatal (LogError e)
                                       | Fatal l => Fatal l
                                       | Panic => Panic
                                       end, s5))))))
    /\ (forall ev,
           In ev (snd (snd run)) -> stageOf ev = Publish ->
           SkipUpload brew = false
           /\ (isRemoteWrite ev = true -> messageOf ev = Some message)).
Proof.
  intros b run tag terr w1 Hgit s1 artifact message.
  split; [|split].
  - intros e ->. subst run. rewrite runCreate_run. cbv zeta.
    rewrite Hgit. reflexivity.
  - intros -> sum derr s2 Hcalc.
    subst run. rewrite runCreate_run. cbv zeta. rewrite Hgit.
    fold b. fold artifact.
    unfold s1 in Hcalc. rewrite calculate_run in Hcalc.
    destruct (os_Open sys (Artifact.Path artifact) w1) as [[e|] w2].
    { apply returned_pair_inv in Hcalc as (<- & <- & <-).
      split; [intros e' [= ->]; reflexivity | discriminate]. }
    destruct (io_Copy sys (Artifact.Path artifact) w2)
      as [[contents cerr] w3].
    destruct (file_Close sys (Artifact.Path artifact) w3) as [u w4].
    destruct cerr as [e|].
    { apply returned_pair_inv in Hcalc as (<- & <- & <-).
      split; [intros e' [= ->]; reflexivity | discriminate]. }
    apply returned_pair_inv in Hcalc as (<- & <- & <-).
    split; [discriminate|].
    intros _ content rerr Hrender. cbn [fst snd].
    rewrite Hrender.
    split; [intros e ->; reflexivity|].
    intros -> werr w5 Hwrite. rewrite Hwrite.
    split; [intros e ->; reflexivity|].
    intros ->. split; intros ->; [reflexivity|].
    intros r s5 Hup. unfold afterUpload.
    change (Name b) with (Repo brew). change (commitMessage artifact) with message.
    rewrite Hup. reflexivity.
  - intros ev Hin Hstage.
    pose proof (runCreate_events sys T formulaTemplate Parse brew w) as Hev.
    rewrite Forall_forall in Hev. specialize (Hev ev Hin).
    rewrite Hgit in Hev. cbn [fst] in Hev.
    destruct ev; try discriminate Hstage;
      destruct Hev as (Hskip & content & Hp);
      (split; [exact Hskip|]); try discriminate.
    + intros _. destruct Hp as (_ & _ & _ & ->). reflexivity.
    + intros _. destruct Hp as (_ & _ & _ & sha & ->). reflexivity.
Qed.

End PipelineClaims.

Lemma runCreate_fail_fast_witness :
  outcome (runCreate (scripted firstPublish) asciiOnly [] parseFormula acme)
          0%nat
  = Returned tt.
Proof.
  pose proof (runCreate_fail_fast (scripted firstPublish) asciiOnly []
                parseFormula acme 0%nat (str "v1.2.3") None 1%nat eq_refl)
    as H.
  cbv zeta in H. destruct H as (_ & H & _).
  destruct (H eq_refl
              (str "2cf24dba5fb0a30e26e83b2ac5b9e29e1b161e5c1fa7425e73043362938b9824")
              None
              (4%nat, [EvGit tagArgs;
                       EvOpen (str "dist/tool-x/tool-x-darwin-amd64");
                       EvCopy (str "dist/tool-x/tool-x-darwin-amd64");
                       EvClose (str "dist/tool-x/tool-x-darwin-amd64")]))
    as (_ & H1).
  { vm_compute. reflexivity. }
  destruct (H1 eq_refl _ None (surjective_pairing _)) as (_ & H2).
  destruct (H2 eq_refl None 5%nat eq_refl) as (_ & H3).
  destruct (H3 eq_refl) as (_ & H4).
  unfold outcome.
  rewrite (H4 eq_refl (Returned None) _ (surjective_pairing _)).
  reflexivity.
Defined.

Lemma runCreate_install_lines_nonempty_witness :
  templateData.Install
    (dataLiteral asciiOnly (withDefaults acme)
       (artifactFor (withDefaults acme) (str "v1.2.3"))
       (str "2cf24dba5fb0a30e26e83b2ac5b9e29e1b161e5c1fa7425e73043362938b9824"))
  <> [].
Proof.
  apply (runCreate_install_lines_nonempty (scripted firstPublish) asciiOnly []
           parseFormula acme 0%nat).
  vm_compute. do 4 right. left. reflexivity.
Defined.

(** C10, as stated, fails for a repo name that is not a single path
    element: for the repo name [a/../b] the manifest is written to
    [dist/b.rb], not to [dist/a/../b.rb]. *)
Lemma runCreate_output_path_is_cleaned :
  writtenPaths (trace (runCreate (scripted firstPublish) asciiOnly []
                                 parseFormula dotted) 0%nat)
  = [str "dist/b.rb"]
  /\ str "dist/b.rb" <> str "dist/" ++ Repo dotted ++ str ".rb".
Proof. split; [vm_compute; reflexivity | discriminate]. Qed.

Lemma runCreate_identity_fields_witness :
  outputPath (withDefaults acme) = str "dist/" ++ Repo acme ++ str ".rb".
Proof.
  destruct (runCreate_identity_fields (scripted firstPublish) asciiOnly []
              parseFormula acme 0%nat) as (_ & _ & _ & H).
  destruct (H (outputPath (withDefaults acme))) as [_ Hp].
  - vm_compute. left. reflexivity.
  - apply Hp. vm_compute. lia.
Defined.


(* ================================================================== *)
(** * Further properties of the line splitter *)

Lemma TrimLeftFunc_nil (f : rune -> bool) (s : gostring) :
  strings.TrimLeftFunc s f = [] -> forallb f s = true.
Proof.
  induction s as [|c t IH]; [reflexivity|].
  cbn [strings.TrimLeftFunc forallb].
  destruct (f c); [exact IH | discriminate].
Qed.

Lemma TrimRightFunc_nil (f : rune -> bool) (s : gostring) :
  strings.TrimRightFunc s f = [] -> forallb f s = true.
Proof.
  induction s as [|c t IH]; [reflexivity|].
  cbn [strings.TrimRightFunc forallb].
  destruct (strings.TrimRightFunc t f); [|discriminate].
  destruct (f c); [intros _; apply IH; reflexivity | discriminate].
Qed.

Lemma forallb_TrimLeftFunc (f : rune -> bool) (s : gostring) :
  forallb f (strings.TrimLeftFunc s f) = true -> forallb f s = true.
Proof.
  induction s as [|c t IH]; [reflexivity|].
  cbn [strings.TrimLeftFunc].
  destruct (f c) eqn:E.
  - intros H. cbn [forallb]. rewrite E. apply IH. exact H.
  - cbn [forallb]. rewrite E. discriminate.
Qed.

Lemma TrimSpace_nil (s : gostring) :
  strings.TrimSpace s = [] -> forallb unicode.IsSpace s = true.
Proof.
  unfold strings.TrimSpace, strings.TrimFunc. intros H.
  apply forallb_TrimLeftFunc, TrimRightFunc_nil, H.
Qed.

(** X1: [split] returns no line at all exactly for the inputs that hold
    nothing but white space (the empty string among them). *)
Theorem split_empty_iff_blank (s : gostring) :
  split s = [] <-> forallb unicode.IsSpace s = true.
Proof.
  rewrite split_unfold. split.
  - destruct (strings.TrimSpace s) as [|c t] eqn:E.
    + intros _. apply TrimSpace_nil, E.
    + intros H. exfalso. exact (Split_nonempty _ _ H).
  - intros H. rewrite TrimSpace_all_space by exact H. reflexivity.
Qed.

Lemma TrimRightFunc_idem (f : rune -> bool) (s : gostring) :
  strings.TrimRightFunc (strings.TrimRightFunc s f) f
  = strings.TrimRightFunc s f.
Proof.
  induction s as [|c t IH]; [reflexivity|].
  cbn [strings.TrimRightFunc].
  destruct (strings.TrimRightFunc t f) as [|x r] eqn:E.
  - destruct (f c) eqn:Ec; [reflexivity|].
    cbn [strings.TrimRightFunc]. rewrite Ec. reflexivity.
  - cbn [strings.TrimRightFunc]. cbn [strings.TrimRightFunc] in IH.
    rewrite IH. reflexivity.
Qed.

Lemma TrimLeftFunc_head (f : rune -> bool) (s : gostring) :
  startsWith f (strings.TrimLeftFunc s f) = false.
Proof.
  induction s as [|c t IH]; [reflexivity|].
  cbn [strings.TrimLeftFunc]. destruct (f c) eqn:E; [exact IH|].
  cbn [startsWith]. exact E.
Qed.

Lemma TrimRightFunc_head (f : rune -> bool) (s : gostring) :
  startsWith f s = false -> startsWith f (strings.TrimRightFunc s f) = false.
Proof.
  destruct s as [|c t]; [reflexivity|].
  cbn [startsWith strings.TrimRightFunc]. intros E.
  destruct (strings.TrimRightFunc t f); [rewrite E|]; exact E.
Qed.

Lemma TrimLeftFunc_id (f : rune -> bool) (s : gostring) :
  startsWith f s = false -> strings.TrimLeftFunc s f = s.
Proof.
  destruct s as [|c t]; [reflexivity|].
  cbn [startsWith strings.TrimLeftFunc]. intros ->. reflexivity.
Qed.

Lemma TrimSpace_idem (s : gostring) :
  strings.TrimSpace (strings.TrimSpace s) = strings.TrimSpace s.
Proof.
  unfold strings.TrimSpace, strings.TrimFunc.
  rewrite (TrimLeftFunc_id unicode.IsSpace
             (strings.TrimRightFunc _ unicode.IsSpace)).
  - apply TrimRightFunc_idem.
  - apply TrimRightFunc_head, TrimLeftFunc_head.
Qed.

Lemma Join_split (s : gostring) :
  strings.Join (split s) LF = strings.TrimSpace s.
Proof.
  rewrite split_unfold.
  destruct (strings.TrimSpace s) as [|c t]; [reflexivity | apply Join_Split].
Qed.

(** X2: splitting is stable under joining: the lines of [split s], joined
    with newlines and split again, are the same lines.  So is splitting
    an input that was trimmed beforehand. *)
Theorem split_Join_split (s : gostring) :
  split (strings.Join (split s) LF) = split s
  /\ split (strings.TrimSpace s) = split s.
Proof.
  assert (H : split (strings.TrimSpace s) = split s).
  { rewrite (split_unfold (strings.TrimSpace s)), TrimSpace_idem.
    symmetry. apply split_unfold. }
  split; [rewrite Join_split|]; exact H.
Qed.


Lemma TrimRightFunc_last (f : rune -> bool) (s : gostring) (d : rune) :
  strings.TrimRightFunc s f <> [] ->
  f (last (strings.TrimRightFunc s f) d) = false.
Proof.
  induction s as [|c t IH]; [intros H; contradiction H; reflexivity|].
  cbn [strings.TrimRightFunc].
  destruct (strings.TrimRightFunc t f) as [|x r] eqn:E.
  - destruct (f c) eqn:Ec; [intros H; contradiction H; reflexivity|].
    intros _. exact Ec.
  - intros _. change (last (c :: x :: r) d) with (last (x :: r) d).
    apply IH. discriminate.
Qed.

Lemma Split_head (c : rune) (t : gostring) (sep : rune) :
  c <> sep ->
  exists h, hd [] (strings.Split (c :: t) sep) = c :: h.
Proof.
  intros H. cbn [strings.Split].
  apply Z.eqb_neq in H. rewrite H.
  destruct (strings.Split t sep) as [|h tl]; eexists; reflexivity.
Qed.

Lemma Split_last (s : gostring) (sep d : rune) :
  s <> [] -> last s d <> sep ->
  last (strings.Split s sep) [] <> []
  /\ last (last (strings.Split s sep) []) d = last s d.
Proof.
  induction s as [|c t IH]; [intros H; contradiction H; reflexivity|].
  intros _ Hlast.
  destruct t as [|x r].
  - cbn [last] in Hlast. cbn [strings.Split].
    apply Z.eqb_neq in Hlast. rewrite Hlast.
    split; [discriminate | reflexivity].
  - change (last (c :: x :: r) d) with (last (x :: r) d) in *.
    destruct (IH ltac:(discriminate) Hlast) as [Hne Heq].
    pose proof (Split_nonempty (x :: r) sep) as Hsplit.
    cbn [strings.Split] in *.
    destruct (c =? sep).
    + destruct (if x =? sep then _ else _) as [|h tl]; [congruence|].
      split; assumption.
    + destruct (if x =? sep then _ else _) as [|h tl]; [congruence|].
      destruct tl as [|h' tl'].
      * cbn [last] in *. split; [discriminate|].
        destruct h; [congruence | exact Heq].
      * split; assumption.
Qed.

(** X3: when [split] returns lines, the first one is not empty and does
    not begin with white space, and the last one is not empty and does not
    end with white space: the two ends of the result are trimmed, whatever
    the lines in between look like. *)
Theorem split_ends_trimmed (s : gostring) :
  split s <> [] ->
  hd [] (split s) <> []
  /\ startsWithSpace (hd [] (split s)) = false
  /\ last (split s) [] <> []
  /\ endsWithSpace (last (split s) []) = false.
Proof.
  rewrite split_unfold.
  destruct (strings.TrimSpace s) as [|c t] eqn:E;
    [intros H; contradiction H; reflexivity|].
  intros _.
  assert (Hc : unicode.IsSpace c = false).
  { pose proof (TrimRightFunc_head unicode.IsSpace
                  (strings.TrimLeftFunc s unicode.IsSpace)
                  (TrimLeftFunc_head _ _)) as H.
    unfold strings.TrimSpace, strings.TrimFunc in E. rewrite E in H.
    exact H. }
  assert (Hz : unicode.IsSpace (last (c :: t) 0) = false).
  { rewrite <- E. unfold strings.TrimSpace, strings.TrimFunc.
    apply TrimRightFunc_last.
    unfold strings.TrimSpace, strings.TrimFunc in E. rewrite E.
    discriminate. }
  destruct (Split_head c t LF) as [h Hh].
  { intros ->. discriminate Hc. }
  destruct (Split_last (c :: t) LF 0) as [Hne Hl].
  { discriminate. }
  { intros Heq. rewrite Heq in Hz. discriminate Hz. }
  rewrite Hh. repeat split.
  - discriminate.
  - exact Hc.
  - exact Hne.
  - unfold endsWithSpace.
    destruct (last (strings.Split (c :: t) LF) []) as [|y l] eqn:El;
      [reflexivity|].
    rewrite Hl. exact Hz.
Qed.

Lemma split_ends_trimmed_witness :
  hd [] (split (str "  a " ++ [LF] ++ str " b  ")) = str "a "
  /\ startsWithSpace (hd [] (split (str "  a " ++ [LF] ++ str " b  "))) = false.
Proof.
  split; [reflexivity|].
  apply (split_ends_trimmed (str "  a " ++ [LF] ++ str " b  ")).
  vm_compute. discriminate.
Defined.


Lemma Split_no_sep (s : gostring) (sep : rune) :
  ~ In sep s -> strings.Split s sep = [s].
Proof.
  induction s as [|c t IH]; [reflexivity|].
  intros H. cbn [strings.Split].
  destruct (Z.eqb_spec c sep) as [->|_]; [exfalso; apply H; left; reflexivity|].
  rewrite IH; [reflexivity|]. intros Hin. apply H. right. exact Hin.
Qed.

Lemma In_TrimLeftFunc (f : rune -> bool) (s : gostring) (x : rune) :
  In x (strings.TrimLeftFunc s f) -> In x s.
Proof.
  induction s as [|c t IH]; [intros []|].
  cbn [strings.TrimLeftFunc]. destruct (f c); [|exact (fun H => H)].
  intros H. right. apply IH, H.
Qed.

Lemma In_TrimRightFunc (f : rune -> bool) (s : gostring) (x : rune) :
  In x (strings.TrimRightFunc s f) -> In x s.
Proof.
  induction s as [|c t IH]; [intros []|].
  cbn [strings.TrimRightFunc].
  destruct (strings.TrimRightFunc t f) as [|y r].
  - destruct (f c); [intros [] | intros [->|[]]; left; reflexivity].
  - intros [->|H]; [left; reflexivity | right; apply IH, H].
Qed.

Lemma In_TrimSpace (s : gostring) (x : rune) :
  In x (strings.TrimSpace s) -> In x s.
Proof.
  unfold strings.TrimSpace, strings.TrimFunc. intros H.
  apply In_TrimLeftFunc with (f := unicode.IsSpace).
  apply In_TrimRightFunc with (f := unicode.IsSpace). exact H.
Qed.

Lemma split_no_newline (s : gostring) :
  ~ In LF s -> strings.TrimSpace s <> [] ->
  split s = [strings.TrimSpace s].
Proof.
  intros Hlf Hne. rewrite split_unfold.
  destruct (strings.TrimSpace s) as [|c t] eqn:E; [contradiction Hne; reflexivity|].
  apply Split_no_sep. intros Hin. apply Hlf.
  apply In_TrimSpace. rewrite E. exact Hin.
Qed.

(** X4: an input without a newline that is not blank gives exactly one
    line, the input without its leading and trailing white space. *)
Theorem split_single_line (s : gostring) :
  ~ In LF s -> forallb unicode.IsSpace s = false ->
  split s = [strings.TrimSpace s].
Proof.
  intros Hlf Hblank. apply split_no_newline; [exact Hlf|].
  intros E. apply TrimSpace_nil in E. congruence.
Qed.

Lemma split_single_line_witness :
  split (str "  depends on git  ") = [str "depends on git"].
Proof.
  rewrite (split_single_line (str "  depends on git  ")).
  - reflexivity.
  - vm_compute. lia.
  - reflexivity.
Defined.

Lemma TrimRightFunc_id (f : rune -> bool) (s : gostring) (d : rune) :
  s <> [] -> f (last s d) = false -> strings.TrimRightFunc s f = s.
Proof.
  induction s as [|c t IH]; [intros H; contradiction H; reflexivity|].
  intros _ Hlast. cbn [strings.TrimRightFunc].
  destruct t as [|x r].
  - cbn [last] in Hlast. cbn [strings.TrimRightFunc]. rewrite Hlast.
    reflexivity.
  - change (last (c :: x :: r) d) with (last (x :: r) d) in Hlast.
    rewrite IH by (discriminate || exact Hlast). reflexivity.
Qed.

Lemma TrimSpace_id (s : gostring) :
  startsWithSpace s = false -> endsWithSpace s = false ->
  strings.TrimSpace s = s.
Proof.
  intros Hs He. unfold strings.TrimSpace, strings.TrimFunc.
  rewrite TrimLeftFunc_id by exact Hs.
  destruct s as [|c t]; [reflexivity|].
  apply TrimRightFunc_id with (d := 0); [discriminate | exact He].
Qed.


(* ================================================================== *)
(** * Further properties of the name normalizer *)

Lemma ascii_title (T : unicode.Tables) (c : rune) :
  0 <= c <= 127 ->
  0 <= unicode.ToTitle T c <= 127
  /\ unicode.ToTitle T (unicode.ToTitle T c) = unicode.ToTitle T c
  /\ strings.isSeparator T (unicode.ToTitle T c) = strings.isSeparator T c
  /\ isLower (unicode.ToTitle T c) = false
  /\ (unicode.ToTitle T c = SP -> c = SP)
  /\ (c <> HYPHEN -> unicode.ToTitle T c <> HYPHEN)
  /\ (c <> UNDERSCORE -> unicode.ToTitle T c <> UNDERSCORE).
Proof.
  intros H.
  assert (E : unicode.ToTitle T c = if isLower c then c - 32 else c)
    by ascii_crush.
  rewrite E.
  destruct (isLower c) eqn:L.
  - assert (97 <= c <= 122) by (revert L; ascii_crush).
    repeat split; ascii_crush.
  - rewrite E, L. repeat split; try lia; try exact L; auto.
Qed.

Lemma ascii_encoded (r : rune) :
  0 <= r <= 127 -> (r <? 0) = false /\ utf8.encoded r = r.
Proof. intros H. split; ascii_crush. Qed.

(** One step of the one-pass normalizer on an ASCII rune [c]: [c'] is
    the rune after ['-'] and ['_'] became spaces, [r] the rune written
    when [b] tells whether the previous rune was a separator. *)
Lemma ascii_step (T : unicode.Tables) (c : rune) (b : bool) :
  0 <= c <= 127 ->
  let c' := if (c =? HYPHEN) || (c =? UNDERSCORE) then SP else c in
  let r := if b then unicode.ToTitle T c' else c' in
  0 <= r <= 127
  /\ r <> HYPHEN /\ r <> UNDERSCORE
  /\ (r = SP -> c' = SP)
  /\ strings.isSeparator T r = strings.isSeparator T c'
  /\ (b = true -> unicode.ToTitle T r = r)
  /\ (b = true -> isLower r = false).
Proof.
  intros H c' r.
  assert (Hc' : 0 <= c' <= 127 /\ c' <> HYPHEN /\ c' <> UNDERSCORE).
  { subst c'. unfold HYPHEN, UNDERSCORE, SP.
    destruct (Z.eqb_spec c 45); destruct (Z.eqb_spec c 95);
      cbn [orb]; lia. }
  destruct Hc' as (Hb & Hh & Hu).
  destruct (ascii_title T c' Hb) as (T1 & T2 & T3 & T4 & T5 & T6 & T7).
  subst r. destruct b.
  - repeat split; auto; lia.
  - repeat split; auto; try lia; discriminate.
Qed.

Lemma isASCII_cons (c : rune) (s : gostring) :
  isASCII (c :: s) = true <-> 0 <= c <= 127 /\ isASCII s = true.
Proof.
  unfold isASCII, unicode.MaxASCII. cbn [forallb].
  rewrite !andb_true_iff, Z.leb_le, Z.leb_le. tauto.
Qed.

Lemma normalize_from_shape (T : unicode.Tables) (s : gostring) (prev : rune) :
  ~ In SP (normalize_from T prev s)
  /\ (List.length (normalize_from T prev s) <= List.length s)%nat.
Proof.
  revert prev. induction s as [|c t IH]; intros prev.
  - split; [intros [] | apply Nat.le_refl].
  - cbn [normalize_from List.length].
    set (c' := if (c =? HYPHEN) || (c =? UNDERSCORE) then SP else c).
    set (r := if strings.isSeparator T prev then unicode.ToTitle T c' else c').
    destruct (IH c') as [IH1 IH2].
    destruct (r <? 0); [split; [exact IH1 | cbn [app]; lia]|].
    destruct (Z.eqb_spec (utf8.encoded r) SP) as [E|E].
    + split; [exact IH1 | cbn [app]; lia].
    + split; [|cbn [app List.length]; lia].
      intros [Hin|Hin]; [congruence | exact (IH1 Hin)].
Qed.

Lemma normalize_from_ascii (T : unicode.Tables) (s : gostring) (prev : rune) :
  isASCII s = true ->
  isASCII (normalize_from T prev s) = true
  /\ ~ In HYPHEN (normalize_from T prev s)
  /\ ~ In UNDERSCORE (normalize_from T prev s).
Proof.
  revert prev. induction s as [|c t IH]; intros prev Hs.
  - repeat split; intros [].
  - apply isASCII_cons in Hs as [Hc Ht].
    cbn [normalize_from].
    destruct (ascii_step T c (strings.isSeparator T prev) Hc)
      as (Hr & Hh & Hu & _).
    set (c' := if (c =? HYPHEN) || (c =? UNDERSCORE) then SP else c) in *.
    set (r := if strings.isSeparator T prev then unicode.ToTitle T c' else c')
      in *.
    destruct (ascii_encoded r Hr) as [-> ->].
    destruct (IH c' Ht) as (I1 & I2 & I3).
    destruct (r =? SP); [repeat split; assumption|].
    cbn [app]. repeat split.
    + apply isASCII_cons. split; assumption.
    + intros [E|Hin]; [congruence | exact (I2 Hin)].
    + intros [E|Hin]; [congruence | exact (I3 Hin)].
Qed.

(** X5: the formula name never contains a space and is never longer than
    the raw name; for an ASCII raw name it is ASCII and contains neither
    ['-'] nor ['_']. *)
Theorem formulaNameFor_characters (T : unicode.Tables) (name : gostring) :
  ~ In SP (formulaNameFor T name)
  /\ (List.length (formulaNameFor T name) <= List.length name)%nat
  /\ (isASCII name = true ->
      isASCII (formulaNameFor T name) = true
      /\ ~ In HYPHEN (formulaNameFor T name)
      /\ ~ In UNDERSCORE (formulaNameFor T name)).
Proof.
  unfold formulaNameFor, strings.Title. rewrite formulaNameFor_from.
  destruct (normalize_from_shape T name SP) as [H1 H2].
  split; [exact H1|]. split; [exact H2|].
  intros H. exact (normalize_from_ascii T name SP H).
Qed.

Lemma formulaNameFor_characters_witness :
  ~ In HYPHEN (formulaNameFor asciiOnly (str "my-cool_tool")).
Proof.
  apply (formulaNameFor_characters asciiOnly (str "my-cool_tool")).
  reflexivity.
Defined.

Lemma normalize_from_head (T : unicode.Tables) (s : gostring) (prev : rune) :
  isASCII s = true -> strings.isSeparator T prev = true ->
  startsWith isLower (normalize_from T prev s) = false.
Proof.
  revert prev. induction s as [|c t IH]; intros prev Hs Hp; [reflexivity|].
  apply isASCII_cons in Hs as [Hc Ht].
  cbn [normalize_from].
  destruct (ascii_step T c (strings.isSeparator T prev) Hc)
    as (Hr & _ & _ & Hsp & _ & _ & Hlow).
  set (c' := if (c =? HYPHEN) || (c =? UNDERSCORE) then SP else c) in *.
  set (r := if strings.isSeparator T prev then unicode.ToTitle T c' else c')
    in *.
  destruct (ascii_encoded r Hr) as [-> ->].
  destruct (Z.eqb_spec r SP) as [E|E].
  - cbn [app]. apply IH; [exact Ht|]. rewrite (Hsp E). reflexivity.
  - cbn [app startsWith]. apply Hlow, Hp.
Qed.

(** X6: for an ASCII raw name the formula name does not begin with a
    lower-case letter. *)
Theorem formulaNameFor_not_lower_initial (T : unicode.Tables)
        (name : gostring) :
  isASCII name = true ->
  startsWith isLower (formulaNameFor T name) = false.
Proof.
  intros H. unfold formulaNameFor, strings.Title.
  rewrite formulaNameFor_from. apply normalize_from_head; [exact H|].
  reflexivity.
Qed.

Lemma formulaNameFor_not_lower_initial_witness :
  startsWith isLower (formulaNameFor asciiOnly (str "--tool_x")) = false.
Proof.
  apply (formulaNameFor_not_lower_initial asciiOnly (str "--tool_x")).
  reflexivity.
Defined.

Lemma normalize_from_idem (T : unicode.Tables) (s : gostring) (p q : rune) :
  isASCII s = true ->
  (strings.isSeparator T p = false -> strings.isSeparator T q = false) ->
  normalize_from T q (normalize_from T p s) = normalize_from T p s.
Proof.
  revert p q. induction s as [|c t IH]; intros p q Hs Hpq; [reflexivity|].
  apply isASCII_cons in Hs as [Hc Ht].
  cbn [normalize_from].
  destruct (ascii_step T c (strings.isSeparator T p) Hc)
    as (Hr & Hh & Hu & Hsp & Hsep & Htt & _).
  set (c' := if (c =? HYPHEN) || (c =? UNDERSCORE) then SP else c) in *.
  set (r := if strings.isSeparator T p then unicode.ToTitle T c' else c')
    in *.
  destruct (ascii_encoded r Hr) as [Hneg Henc]. rewrite Hneg, Henc.
  destruct (Z.eqb_spec r SP) as [E|E].
  - cbn [app]. apply IH; [exact Ht|].
    rewrite (Hsp E). discriminate.
  - cbn [app normalize_from].
    assert (Hr' : (if (r =? HYPHEN) || (r =? UNDERSCORE) then SP else r) = r).
    { apply Z.eqb_neq in Hh, Hu. rewrite Hh, Hu. reflexivity. }
    rewrite Hr'.
    assert (Hr2 : (if strings.isSeparator T q then unicode.ToTitle T r else r)
                  = r).
    { destruct (strings.isSeparator T p) eqn:Ep.
      - rewrite (Htt eq_refl). destruct (strings.isSeparator T q); reflexivity.
      - rewrite (Hpq eq_refl). reflexivity. }
    rewrite Hr2, Hneg, Henc.
    apply Z.eqb_neq in E. rewrite E. cbn [app]. f_equal.
    apply IH; [exact Ht|]. rewrite Hsep. exact (fun H => H).
Qed.

(** X7: on ASCII raw names the normalizer is idempotent: a formula name
    is its own formula name. *)
Theorem formulaNameFor_idempotent (T : unicode.Tables) (name : gostring) :
  isASCII name = true ->
  formulaNameFor T (formulaNameFor T name) = formulaNameFor T name.
Proof.
  intros H.
  assert (E : forall s, formulaNameFor T s = normalize_from T SP s)
    by (intros s; apply formulaNameFor_from).
  rewrite !E. apply normalize_from_idem; [exact H | exact (fun H => H)].
Qed.

Lemma formulaNameFor_idempotent_witness :
  formulaNameFor asciiOnly (str "MyCoolTool") = str "MyCoolTool".
Proof.
  change (str "MyCoolTool") with (formulaNameFor asciiOnly (str "my-cool_tool")).
  apply (formulaNameFor_idempotent asciiOnly (str "my-cool_tool")).
  reflexivity.
Defined.


(* ================================================================== *)
(** * Further properties of the digest *)

(** X8: [calculate] closes the file exactly when it opened it: after a
    failed [os.Open] it neither reads nor closes; after a successful one
    it copies once and closes once, whether or not the copy failed. *)
Theorem calculate_closes_what_it_opened
        {W : Type} (sys : System W) (path : gostring) (w : W) :
  (forall e w1,
      os_Open sys path w = (Some e, w1) ->
      trace (calculate sys path) w = [EvOpen path])
  /\ (forall w1,
         os_Open sys path w = (None, w1) ->
         trace (calculate sys path) w
         = [EvOpen path; EvCopy path; EvClose path]).
Proof.
  unfold trace. rewrite calculate_run. split.
  - intros e w1 ->. reflexivity.
  - intros w1 ->.
    destruct (io_Copy sys path w1) as [[written rerr] w2].
    destruct (file_Close sys path w2). reflexivity.
Qed.

Lemma calculate_closes_what_it_opened_witness :
  trace (calculate (scripted truncatedArtifact)
                   (str "dist/tool-x/tool-x-darwin-amd64")) 0%nat
  = [EvOpen (str "dist/tool-x/tool-x-darwin-amd64");
     EvCopy (str "dist/tool-x/tool-x-darwin-amd64");
     EvClose (str "dist/tool-x/tool-x-darwin-amd64")].
Proof.
  apply (proj2 (calculate_closes_what_it_opened (scripted truncatedArtifact)
                  (str "dist/tool-x/tool-x-darwin-amd64") 0%nat) 1%nat).
  reflexivity.
Defined.

(* ================================================================== *)
(** * Further properties of the publish client *)

Section PublishMore.

Context {W : Type} (sys : System W).
Context (brew : Homebrew) (content path message : gostring).

(** Every run of [upload] ends in one of the five ways of [uploadEnd]. *)
Lemma upload_ends (w : W) (tr : list Event) :
  exists evs,
    snd (snd (upload sys brew content path message (w, tr))) = tr ++ evs
    /\ uploadEnd brew content path message
         (fst (fst (os_LookupEnv sys GH_TOOLS_TOKEN w)))
         (fst (upload sys brew content path message (w, tr))) evs.
Proof.
  rewrite upload_run.
  destruct (os_LookupEnv sys GH_TOOLS_TOKEN w) as [[token found] w1].
  cbn [fst snd].
  destruct found; cbn [negb fst snd].
  2: { eexists. split; [reflexivity | constructor]. }
  destruct (Repositories_GetContents sys token (BrewOwner brew)
              (BrewRepo brew) path w1) as [[[file res] err] w2].
  destruct res as [r|].
  2: { eexists. rewrite <- app_assoc. split; [reflexivity | constructor]. }
  destruct (github.StatusCode r =? 404).
  - destruct (Repositories_CreateFile sys token (BrewOwner brew)
                (BrewRepo brew) path (fileOptions brew content message) w2).
    eexists. cbn [fst snd]. rewrite <- !app_assoc.
    split; [reflexivity | constructor].
  - destruct err as [e|].
    { eexists. rewrite <- app_assoc. split; [reflexivity | constructor]. }
    destruct file as [f|].
    2: { eexists. rewrite <- app_assoc. split; [reflexivity | constructor]. }
    destruct (Repositories_UpdateFile sys token (BrewOwner brew)
                (BrewRepo brew) path
                (github.set_SHA (fileOptions brew content message)
                                (github.SHA f)) w2).
    eexists. cbn [fst snd]. rewrite <- !app_assoc.
    split; [reflexivity | constructor].
Qed.

(** X9: without [GH_TOOLS_TOKEN] in the environment [upload] stops the
    process through [log.Fatalln] right after the lookup: it makes no API
    call at all. *)
Theorem upload_without_token (w w1 : W) (token : gostring) :
  os_LookupEnv sys GH_TOOLS_TOKEN w = ((token, false), w1) ->
  upload sys brew content path message (w, [])
  = (Fatal (LogLine (str "GH_TOOLS_TOKEN env var is not set")),
     (w1, [EvLookupEnv GH_TOOLS_TOKEN])).
Proof.
  intros Henv. rewrite upload_run, Henv. reflexivity.
Qed.

(** X11: on a 404 answer [upload] returns exactly what [CreateFile]
    returned, error or not, and ends in the state the create left: a
    failed create is not followed by an update or a second create. *)
Theorem upload_returns_create_result
        (w w1 w2 w3 : W) (token : gostring)
        (file : option github.RepositoryContent) (r : github.Response)
        (err cerr : option error) :
  os_LookupEnv sys GH_TOOLS_TOKEN w = ((token, true), w1) ->
  Repositories_GetContents sys token (BrewOwner brew) (BrewRepo brew) path w1
  = ((file, Some r, err), w2) ->
  github.StatusCode r = 404 ->
  Repositories_CreateFile sys token (BrewOwner brew) (BrewRepo brew) path
    (fileOptions brew content message) w2 = (cerr, w3) ->
  upload sys brew content path message (w, [])
  = (Returned cerr,
     (w3, [EvLookupEnv GH_TOOLS_TOKEN;
           EvGetContents token (BrewOwner brew) (BrewRepo brew) path;
           EvCreateFile token (BrewOwner brew) (BrewRepo brew) path
                        (fileOptions brew content message)])).
Proof.
  intros Henv Hget Hr Hcreate.
  rewrite upload_run, Henv. cbn [negb]. rewrite Hget, Hr.
  cbn [Z.eqb Pos.eqb]. rewrite Hcreate. reflexivity.
Qed.

(** X12: when the query succeeds without a file (the path is a directory
    of the tap, for which [GetContents] returns a nil file), [upload]
    panics on [file.SHA]; nothing is written. *)
Theorem upload_panics_on_directory
        (w w1 w2 : W) (token : gostring) (r : github.Response) :
  os_LookupEnv sys GH_TOOLS_TOKEN w = ((token, true), w1) ->
  Repositories_GetContents sys token (BrewOwner brew) (BrewRepo brew) path w1
  = ((None, Some r, None), w2) ->
  github.StatusCode r <> 404 ->
  upload sys brew content path message (w, [])
  = (Panic,
     (w2, [EvLookupEnv GH_TOOLS_TOKEN;
           EvGetContents token (BrewOwner brew) (BrewRepo brew) path])).
Proof.
  intros Henv Hget Hr.
  rewrite upload_run, Henv. cbn [negb]. rewrite Hget.
  apply Z.eqb_neq in Hr. rewrite Hr. reflexivity.
Qed.

(** X13: in every run [upload] makes at most one remote write.  Every API
    call is made with the token read from [GH_TOOLS_TOKEN] and addresses
    the path in [BrewOwner]/[BrewRepo]; a write carries the content and
    the message given and names [Author] and [AuthorEmail] as
    committer. *)
Theorem upload_writes_at_most_once (w : W) :
  let tr := trace (upload sys brew content path message) w in
  (List.length (remoteWrites tr) <= 1)%nat
  /\ forall ev,
      In ev tr ->
      (forall t, tokenOf ev = Some t ->
                 t = fst (fst (os_LookupEnv sys GH_TOOLS_TOKEN w)))
      /\ (forall tgt, targetOf ev = Some tgt ->
                      tgt = (BrewOwner brew, BrewRepo brew, path))
      /\ (forall opts,
             optionsOf ev = Some opts ->
             github.Content opts = content
             /\ github.Message opts = Some message
             /\ github.Committer opts
                = Some {| github.Name := Some (Author brew);
                          github.Email := Some (AuthorEmail brew) |}).
Proof.
  intros tr. subst tr. unfold trace.
  destruct (upload_ends w []) as (evs & -> & Hend).
  cbn [app]. inversion Hend; subst; clear Hend.
  all: split; [cbn; lia|].
  all: intros ev Hin; cbn [In] in Hin;
    repeat (destruct Hin as [<-|Hin]); try contradiction;
    (split; [|split]);
    cbn [tokenOf targetOf optionsOf]; intros x Hx;
    try discriminate Hx; injection Hx as <-; auto.
Qed.

(** X14: [upload] returns without an error only after it made a write:
    success means that exactly one create or update was issued. *)
Theorem upload_success_wrote (w : W) :
  outcome (upload sys brew content path message) w = Returned None ->
  List.length (remoteWrites (trace (upload sys brew content path message) w))
  = 1%nat.
Proof.
  unfold outcome, trace.
  destruct (upload_ends w []) as (evs & -> & Hend).
  intros H. rewrite H in Hend. inversion Hend; reflexivity.
Qed.

End PublishMore.


Lemma upload_without_token_witness :
  outcome (upload (scripted noToken) acme (str "class ToolX < Formula")
                  (str "tool-x.rb") (str "Brew formula update")) 0%nat
  = Fatal (LogLine (str "GH_TOOLS_TOKEN env var is not set")).
Proof.
  unfold outcome.
  rewrite (upload_without_token (scripted noToken) acme
             (str "class ToolX < Formula") (str "tool-x.rb")
             (str "Brew formula update") 0%nat 1%nat [] eq_refl).
  reflexivity.
Defined.

Lemma upload_returns_create_result_witness :
  outcome (upload (scripted createRefused) acme (str "class ToolX < Formula")
                  (str "tool-x.rb") (str "Brew formula update")) 0%nat
  = Returned (Some (errorString (str "422 Unprocessable Entity"))).
Proof.
  unfold outcome.
  rewrite (upload_returns_create_result (scripted createRefused) acme
             (str "class ToolX < Formula") (str "tool-x.rb")
             (str "Brew formula update") 0%nat 1%nat 2%nat 3%nat
             (str "secret") None {| github.StatusCode := 404 |}
             (Some (errorString (str "404 Not Found")))
             (Some (errorString (str "422 Unprocessable Entity")))
             eq_refl eq_refl eq_refl eq_refl).
  reflexivity.
Defined.

Lemma upload_panics_on_directory_witness :
  outcome (upload (scripted directoryAtPath) acme (str "class ToolX < Formula")
                  (str "tool-x.rb") (str "Brew formula update")) 0%nat
  = Panic.
Proof.
  unfold outcome.
  rewrite (upload_panics_on_directory (scripted directoryAtPath) acme
             (str "class ToolX < Formula") (str "tool-x.rb")
             (str "Brew formula update") 0%nat 1%nat 2%nat
             (str "secret") {| github.StatusCode := 200 |}
             eq_refl eq_refl ltac:(simpl; lia)).
  reflexivity.
Defined.

Lemma upload_returns_query_error_witness :
  outcome (upload (scripted serverError) acme (str "class ToolX < Formula")
                  (str "tool-x.rb") (str "Brew formula update")) 0%nat
  = Returned (Some (errorString (str "500 Internal Server Error"))).
Proof.
  apply (upload_returns_query_error (scripted serverError) acme
           (str "class ToolX < Formula") (str "tool-x.rb")
           (str "Brew formula update") 0%nat 1%nat 2%nat
           (str "secret") None {| github.StatusCode := 500 |}
           (errorString (str "500 Internal Server Error"))
           eq_refl eq_refl ltac:(simpl; lia)).
Defined.

Lemma upload_writes_at_most_once_witness :
  github.Content (fileOptions acme (str "class ToolX < Formula")
                              (str "Brew formula update"))
  = str "class ToolX < Formula".
Proof.
  destruct (upload_writes_at_most_once (scripted firstPublish) acme
              (str "class ToolX < Formula") (str "tool-x.rb")
              (str "Brew formula update") 0%nat) as [_ H].
  destruct (H (EvCreateFile (str "secret") (str "appscode")
                 (str "homebrew-tap") (str "tool-x.rb")
                 (fileOptions acme (str "class ToolX < Formula")
                              (str "Brew formula update"))))
    as (_ & _ & Hopts).
  - vm_compute. do 2 right. left. reflexivity.
  - apply (Hopts _ eq_refl).
Defined.

Lemma upload_success_wrote_witness :
  List.length
    (remoteWrites (trace (upload (scripted firstPublish) acme
                                 (str "class ToolX < Formula")
                                 (str "tool-x.rb")
                                 (str "Brew formula update")) 0%nat))
  = 1%nat.
Proof.
  apply (upload_success_wrote (scripted firstPublish) acme
           (str "class ToolX < Formula") (str "tool-x.rb")
           (str "Brew formula update") 0%nat).
  reflexivity.
Defined.


(* ================================================================== *)
(** * Further properties of the pipeline *)

Section PipelineMore.

Context {W : Type} (sys : System W).
Context (T : unicode.Tables).
Context (formulaTemplate : gostring).
Context (Parse : gostring -> gostring -> template.Template + error).

(** Every run of [runCreate] ends in one of the ways of [runEnd]. *)
Lemma runCreate_ends (brew : Homebrew) (w : W) :
  runEnd T formulaTemplate Parse brew
         (fst (fst (git_Clean_Run sys tagArgs w)))
         (outcome (runCreate sys T formulaTemplate Parse brew) w)
         (trace (runCreate sys T formulaTemplate Parse brew) w).
Proof.
  unfold outcome, trace. rewrite runCreate_run. cbv zeta.
  destruct (git_Clean_Run sys tagArgs w) as [[tag [e|]] w1]; cbn [fst snd].
  { constructor. }
  destruct (os_Open sys _ w1) as [[e|] w2]; cbn [fst snd].
  { constructor. }
  destruct (io_Copy sys _ w2) as [[contents rerr] w3].
  destruct (file_Close sys _ w3) as [u w4].
  destruct rerr as [e|]; cbn [fst snd].
  { constructor. }
  destruct (doBuildFormula formulaTemplate Parse _) as [content [e|]] eqn:Hr;
    cbn [fst snd].
  { eapply run_render_failed. exact Hr. }
  destruct (ioutil_WriteFile sys _ content 420 w4) as [[e|] w5];
    cbn [fst snd].
  { apply (run_written T formulaTemplate Parse brew tag contents content
             _ [] Hr). constructor. }
  destruct (SkipUpload brew) eqn:Hskip; cbn [fst snd].
  { apply (run_written T formulaTemplate Parse brew tag contents content
             _ [] Hr). constructor. exact Hskip. }
  unfold afterUpload. cbn [fst snd].
  match goal with
  | |- context [upload sys ?b ?c ?p ?m (?w, ?tr)] =>
      destruct (upload_ends sys b c p m w tr) as (evs & -> & Hend)
  end.
  apply (run_written T formulaTemplate Parse brew tag contents content
           _ evs Hr).
  eapply upload_ran; [exact Hskip | exact Hend].
Qed.

Lemma uploadEnd_events (b : Homebrew) (content path message token : gostring)
      (r : result (option error)) (evs : list Event) :
  uploadEnd b content path message token r evs ->
  Forall (publishEvent b content path message) evs
  /\ (List.length (remoteWrites evs) <= 1)%nat
  /\ (r = Returned None -> List.length (remoteWrites evs) = 1%nat)
  /\ (r = Panic -> remoteWrites evs = []).
Proof.
  intros H. destruct H; (split; [repeat constructor; eexists; reflexivity|]);
    cbn [remoteWrites filter isRemoteWrite List.length];
    repeat split; try lia; try discriminate; try reflexivity.
Qed.

Lemma afterWrite_events (b : Homebrew) (artifact : Artifact.t)
      (content : gostring) (r : result unit) (evs : list Event) :
  afterWrite b artifact content r evs ->
  Forall (publishEvent b content (Name b ++ str ".rb")
                       (commitMessage artifact)) evs
  /\ (List.length (remoteWrites evs) <= 1)%nat
  /\ (r = Returned tt ->
      List.length (remoteWrites evs)
      = if SkipUpload b then 0%nat else 1%nat)
  /\ (r = Panic -> SkipUpload b = false /\ remoteWrites evs = [])
  /\ (SkipUpload b = true -> evs = []).
Proof.
  intros H. destruct H as [e|Hskip|token r evs Hskip Hup].
  - split; [constructor|]. split; [cbn; lia|].
    split; [discriminate|]. split; [discriminate | reflexivity].
  - rewrite Hskip. split; [constructor|]. split; [cbn; lia|].
    split; [reflexivity|]. split; [discriminate | reflexivity].
  - rewrite Hskip.
    destruct (uploadEnd_events _ _ _ _ _ _ _ Hup) as (H1 & H2 & H3 & H4).
    split; [exact H1|]. split; [exact H2|]. split; [|split].
    + intros Hr. apply H3. destruct r as [[e|]| |]; try discriminate Hr.
      reflexivity.
    + intros Hr. split; [reflexivity|]. apply H4.
      destruct r as [[e|]| |]; try discriminate Hr. reflexivity.
    + discriminate.
Qed.

Lemma publishEvent_not_local (b : Homebrew) (content path message : gostring)
      (evs : list Event) :
  Forall (publishEvent b content path message) evs ->
  writtenPaths evs = [] /\ rendered evs = []
  /\ Forall (fun ev => stageOf ev = Publish) evs.
Proof.
  induction 1 as [|ev evs Hev _ (IH1 & IH2 & IH3)];
    [repeat split; constructor|].
  destruct ev; try contradiction; cbn [writtenPaths rendered];
    repeat split; try assumption; constructor; auto.
Qed.

Lemma writtenPaths_app (a b : list Event) :
  writtenPaths (a ++ b) = writtenPaths a ++ writtenPaths b.
Proof.
  induction a as [|ev a IH]; [reflexivity|].
  destruct ev; cbn [app writtenPaths]; rewrite IH; reflexivity.
Qed.

Lemma rendered_app (a b : list Event) :
  rendered (a ++ b) = rendered a ++ rendered b.
Proof.
  induction a as [|ev a IH]; [reflexivity|].
  destruct ev; cbn [app rendered]; rewrite IH; reflexivity.
Qed.

(** Case analysis on the way a run of [runCreate] ended. *)
Ltac run_cases brew w :=
  let Hend := fresh "Hend" in
  pose proof (runCreate_ends brew w) as Hend;
  set (res := outcome (runCreate sys T formulaTemplate Parse brew) w) in *;
  set (tr := trace (runCreate sys T formulaTemplate Parse brew) w) in *;
  set (tag := fst (fst (git_Clean_Run sys tagArgs w))) in *;
  clearbody res tr tag;
  destruct Hend as [e|e|e|contents partial e d Hr
                    |contents content r evs b d Hr Hafter].

(** X15: when [runCreate] returns normally, the manifest was written to
    the output path, once, and the tap received exactly one write, or
    none if [SkipUpload] is set. *)
Theorem runCreate_success (brew : Homebrew) (w : W) :
  outcome (runCreate sys T formulaTemplate Parse brew) w = Returned tt ->
  writtenPaths (trace (runCreate sys T formulaTemplate Parse brew) w)
  = [outputPath (withDefaults brew)]
  /\ List.length
      (remoteWrites (trace (runCreate sys T formulaTemplate Parse brew) w))
    = if SkipUpload brew then 0%nat else 1%nat.
Proof.
  run_cases brew w; intros Hres; try discriminate Hres.
  destruct (afterWrite_events _ _ _ _ _ Hafter) as (Hev & _ & Hn & _).
  destruct (publishEvent_not_local _ _ _ _ _ Hev) as (Hw & _).
  rewrite writtenPaths_app, Hw. unfold remoteWrites. rewrite filter_app.
  rewrite length_app.
  split; [reflexivity|]. exact (Hn Hres).
Qed.

(** X16: what is published is what was written to disk: in every run,
    every remote write carries the bytes of the local write (made with
    mode 0644), which are the bytes rendered from the record of that
    run. *)
Theorem runCreate_publishes_written_bytes (brew : Homebrew) (w : W)
        (p written : gostring) (perm : Z) :
  In (EvWriteFile p written perm)
     (trace (runCreate sys T formulaTemplate Parse brew) w) ->
  perm = 420
  /\ (forall ev opts,
         In ev (trace (runCreate sys T formulaTemplate Parse brew) w) ->
         optionsOf ev = Some opts -> github.Content opts = written)
  /\ (forall d,
         In d (rendered (trace (runCreate sys T formulaTemplate Parse brew) w)) ->
         doBuildFormula formulaTemplate Parse d = (written, None)).
Proof.
  run_cases brew w; intros Hin;
    try (cbn [In] in Hin; repeat (destruct Hin as [Hin|Hin];
                                  try discriminate Hin); contradiction).
  destruct (afterWrite_events _ _ _ _ _ Hafter) as (Hev & _).
  destruct (publishEvent_not_local _ _ _ _ _ Hev) as (_ & Hrd & _).
  rewrite Forall_forall in Hev.
  assert (Hc : written = content /\ perm = 420).
  { apply in_app_or in Hin as [Hin|Hin].
    - cbn [In] in Hin.
      repeat (destruct Hin as [Hin|Hin]; try discriminate Hin);
        try contradiction.
      injection Hin as _ <- <-. split; reflexivity.
    - apply Hev in Hin. contradiction. }
  destruct Hc as [-> ->]. split; [reflexivity|]. split.
  - intros ev opts Hevin Hopts.
    apply in_app_or in Hevin as [Hevin|Hevin].
    + cbn [In] in Hevin.
      repeat (destruct Hevin as [<-|Hevin]; try discriminate Hopts).
      contradiction.
    + apply Hev in Hevin. destruct ev; try contradiction;
        cbn [optionsOf] in Hopts; try discriminate Hopts;
        injection Hopts as <-.
      * destruct Hevin as (_ & _ & _ & ->). reflexivity.
      * destruct Hevin as (_ & _ & _ & sha & ->). reflexivity.
  - intros d' Hd. rewrite rendered_app, Hrd in Hd. cbn [rendered app In] in Hd.
    destruct Hd as [<-|[]]. exact Hr.
Qed.

(** X17: a run never goes back to an earlier stage and never repeats a
    render or a write: the events of every trace are in stage order, with
    at most one record rendered, one file written and one remote
    write. *)
Theorem runCreate_stage_order (brew : Homebrew) (w : W) :
  let tr := trace (runCreate sys T formulaTemplate Parse brew) w in
  StronglySorted stageLe tr
  /\ (List.length (rendered tr) <= 1)%nat
  /\ (List.length (writtenPaths tr) <= 1)%nat
  /\ (List.length (remoteWrites tr) <= 1)%nat.
Proof.
  cbv zeta.
  run_cases brew w;
    try (split; [repeat constructor; unfold stageLe; cbn; lia
                | cbn [rendered writtenPaths remoteWrites filter
                         isRemoteWrite List.length]; lia]).
  destruct (afterWrite_events _ _ _ _ _ Hafter) as (Hev & Hn & _).
  destruct (publishEvent_not_local _ _ _ _ _ Hev) as (Hw & Hrd & Hst).
  rewrite rendered_app, writtenPaths_app, Hw, Hrd.
  unfold remoteWrites. rewrite filter_app, length_app.
  split; [|cbn [rendered writtenPaths filter isRemoteWrite List.length app];
           unfold remoteWrites in Hn; lia].
  assert (Hpub : StronglySorted stageLe evs).
  { clear - Hst. induction Hst as [|ev evs Hev Hst IH]; constructor; auto.
    rewrite Forall_forall in *. intros x Hx. unfold stageLe.
    rewrite Hev, (Hst x Hx). apply Nat.le_refl. }
  assert (Hge : forall a, Forall (stageLe a) evs).
  { intros a. rewrite Forall_forall in *. intros x Hx. unfold stageLe.
    rewrite (Hst x Hx). destruct (stageOf a); cbn; lia. }
  cbn [app].
  repeat (constructor;
          [|repeat (constructor; [unfold stageLe; cbn; lia|]); apply Hge]).
  exact Hpub.
Qed.

(** X18: the record a run renders takes its tag and its version from the
    tag git reported, its checksum is a string of 64 lower-case
    hexadecimal digits, and owner, repo, description, homepage, plist,
    dependencies and conflicts are the fields of [brew]; the caveats are
    the lines of its [Caveats]. *)
Theorem runCreate_record_fields (brew : Homebrew) (w : W)
        (data : templateData.t) :
  In data (rendered (trace (runCreate sys T formulaTemplate Parse brew) w)) ->
  templateData.Tag data = fst (fst (git_Clean_Run sys tagArgs w))
  /\ templateData.Version data = fst (fst (git_Clean_Run sys tagArgs w))
  /\ List.length (templateData.SHA256 data) = 64%nat
  /\ forallb isLowerHex (templateData.SHA256 data) = true
  /\ templateData.Owner data = Owner brew
  /\ templateData.Repo data = Repo brew
  /\ templateData.Desc data = Description brew
  /\ templateData.Homepage data = Homepage brew
  /\ templateData.Plist data = Plist brew
  /\ templateData.Dependencies data = Dependencies brew
  /\ templateData.Conflicts data = Conflicts brew
  /\ templateData.Caveats data = split (Caveats brew).
Proof.
  assert (Hlit : forall tag contents,
             data = dataLiteral T (withDefaults brew)
                   (artifactFor (withDefaults brew) tag)
                   (hex.EncodeToString (sha256.Sum contents)) ->
             templateData.Tag data = tag
             /\ templateData.Version data = tag
             /\ List.length (templateData.SHA256 data) = 64%nat
             /\ forallb isLowerHex (templateData.SHA256 data) = true
             /\ templateData.Owner data = Owner brew
             /\ templateData.Repo data = Repo brew
             /\ templateData.Desc data = Description brew
             /\ templateData.Homepage data = Homepage brew
             /\ templateData.Plist data = Plist brew
             /\ templateData.Dependencies data = Dependencies brew
             /\ templateData.Conflicts data = Conflicts brew
             /\ templateData.Caveats data = split (Caveats brew)).
  { intros tag contents ->. cbn [dataLiteral templateData.Tag
      templateData.Version templateData.SHA256 templateData.Owner
      templateData.Repo templateData.Desc templateData.Homepage
      templateData.Plist templateData.Dependencies templateData.Conflicts
      templateData.Caveats].
    split; [reflexivity|]. split; [reflexivity|].
    split; [rewrite EncodeToString_length, Sum_length; reflexivity|].
    split; [apply EncodeToString_lower_hex|].
    repeat split. }
  run_cases brew w; intros Hin; try (cbn [rendered In] in Hin; contradiction).
  - cbn [rendered In] in Hin. destruct Hin as [<-|[]].
    apply (Hlit tag contents). reflexivity.
  - destruct (afterWrite_events _ _ _ _ _ Hafter) as (Hev & _).
    destruct (publishEvent_not_local _ _ _ _ _ Hev) as (_ & Hrd & _).
    rewrite rendered_app, Hrd in Hin. cbn [rendered app In] in Hin.
    destruct Hin as [<-|[]]. apply (Hlit tag contents). reflexivity.
Qed.

(** X19: when the repo name holds no newline, the record a run renders
    has exactly one install line, [bin.install <repo>-darwin-amd64]. *)
Theorem runCreate_single_install_line (brew : Homebrew) (w : W)
        (data : templateData.t) :
  ~ In LF (Repo brew) ->
  In data (rendered (trace (runCreate sys T formulaTemplate Parse brew) w)) ->
  templateData.Install data
  = [str "bin.install " ++ Repo brew ++ str "-darwin-amd64"].
Proof.
  intros Hlf.
  assert (Hline : split (str "bin.install " ++ Repo brew ++ str "-darwin-amd64")
                  = [str "bin.install " ++ Repo brew ++ str "-darwin-amd64"]).
  { assert (Hid : strings.TrimSpace
                    (str "bin.install " ++ Repo brew ++ str "-darwin-amd64")
                  = str "bin.install " ++ Repo brew ++ str "-darwin-amd64").
    { apply TrimSpace_id; [reflexivity|].
      unfold endsWithSpace.
      change (str "bin.install " ++ Repo brew ++ str "-darwin-amd64")
        with (str "bin.install " ++ Repo brew ++ str "-darwin-amd6" ++ [52]).
      rewrite !app_assoc.
      match goal with
      | |- context [?pre ++ [52]] =>
          rewrite (last_last pre); destruct (pre ++ [52]) eqn:E
      end; [|reflexivity].
      apply app_eq_nil in E as [_ E]. discriminate E. }
    rewrite split_no_newline.
    - f_equal. exact Hid.
    - intros Hin. apply in_app_or in Hin as [Hin|Hin].
      + cbn in Hin. unfold LF in Hin. intuition discriminate.
      + apply in_app_or in Hin as [Hin|Hin]; [contradiction|].
        cbn in Hin. unfold LF in Hin. intuition discriminate.
    - rewrite Hid. discriminate. }
  assert (Hlit : forall tag sum,
             templateData.Install
               (dataLiteral T (withDefaults brew)
                  (artifactFor (withDefaults brew) tag) sum)
             = [str "bin.install " ++ Repo brew ++ str "-darwin-amd64"])
    by (intros; exact Hline).
  run_cases brew w; intros Hin; try (cbn [rendered In] in Hin; contradiction).
  - cbn [rendered In] in Hin. destruct Hin as [<-|[]]. apply Hlit.
  - destruct (afterWrite_events _ _ _ _ _ Hafter) as (Hev & _).
    destruct (publishEvent_not_local _ _ _ _ _ Hev) as (_ & Hrd & _).
    rewrite rendered_app, Hrd in Hin. cbn [rendered app In] in Hin.
    destruct Hin as [<-|[]]. apply Hlit.
Qed.

(** X20: every API call of a run addresses the file [<repo>.rb] at the
    root of [BrewOwner]/[BrewRepo]: the [Folder] flag is not part of the
    path.  Neither [Folder] nor [Test] has any effect on a run. *)
Theorem runCreate_remote_target (brew : Homebrew) (w : W) :
  (forall ev tgt,
      In ev (trace (runCreate sys T formulaTemplate Parse brew) w) ->
      targetOf ev = Some tgt ->
      tgt = (BrewOwner brew, BrewRepo brew, Repo brew ++ str ".rb"))
  /\ (forall folder,
         runCreate sys T formulaTemplate Parse (set_Folder brew folder)
         = runCreate sys T formulaTemplate Parse brew)
  /\ (forall test,
         runCreate sys T formulaTemplate Parse (set_Test brew test)
         = runCreate sys T formulaTemplate Parse brew).
Proof.
  split; [|split; intros; reflexivity].
  intros ev tgt.
  run_cases brew w; intros Hin Htgt;
    try (cbn [In] in Hin;
         repeat (destruct Hin as [<-|Hin]; try discriminate Htgt);
         contradiction).
  destruct (afterWrite_events _ _ _ _ _ Hafter) as (Hev & _).
  rewrite Forall_forall in Hev.
  apply in_app_or in Hin as [Hin|Hin].
  - cbn [In] in Hin.
    repeat (destruct Hin as [<-|Hin]; try discriminate Htgt). contradiction.
  - apply Hev in Hin.
    destruct ev; try contradiction; cbn [targetOf] in Htgt;
      try discriminate Htgt; injection Htgt as <-.
    + destruct Hin as (-> & -> & ->). reflexivity.
    + destruct Hin as (-> & -> & -> & _). reflexivity.
    + destruct Hin as (-> & -> & -> & _). reflexivity.
Qed.

(** X21: [runCreate] can panic only inside [upload]: when a run panics,
    [SkipUpload] was false, the manifest is already written to disk and
    nothing has been written to the tap. *)
Theorem runCreate_panics_only_in_upload (brew : Homebrew) (w : W) :
  outcome (runCreate sys T formulaTemplate Parse brew) w = Panic ->
  SkipUpload brew = false
  /\ writtenPaths (trace (runCreate sys T formulaTemplate Parse brew) w)
     = [outputPath (withDefaults brew)]
  /\ remoteWrites (trace (runCreate sys T formulaTemplate Parse brew) w) = [].
Proof.
  run_cases brew w; intros Hres; try discriminate Hres.
  destruct (afterWrite_events _ _ _ _ _ Hafter) as (Hev & _ & _ & Hp & _).
  destruct (publishEvent_not_local _ _ _ _ _ Hev) as (Hw & _).
  destruct (Hp Hres) as [Hskip Hrw].
  rewrite writtenPaths_app, Hw. unfold remoteWrites in *.
  rewrite filter_app, Hrw.
  repeat split. exact Hskip.
Qed.

(** The record a run renders is the literal of [dataFor] for the tag
    git reported and the digest of some contents. *)
Lemma runCreate_rendered_literal (brew : Homebrew) (w : W)
      (data : templateData.t) :
  In data (rendered (trace (runCreate sys T formulaTemplate Parse brew) w)) ->
  exists contents,
    data = dataLiteral T (withDefaults brew)
             (artifactFor (withDefaults brew)
                          (fst (fst (git_Clean_Run sys tagArgs w))))
             (hex.EncodeToString (sha256.Sum contents)).
Proof.
  run_cases brew w; intros Hin; try (cbn [rendered In] in Hin; contradiction).
  - cbn [rendered In] in Hin. destruct Hin as [<-|[]].
    exists contents. reflexivity.
  - destruct (afterWrite_events _ _ _ _ _ Hafter) as (Hev & _).
    destruct (publishEvent_not_local _ _ _ _ _ Hev) as (_ & Hrd & _).
    rewrite rendered_app, Hrd in Hin. cbn [rendered app In] in Hin.
    destruct Hin as [<-|[]]. exists contents. reflexivity.
Qed.

(** X22: no flag of the command is bound to [Plist], [Test], [Name] or
    [Install]: whatever the command line, the record rendered has an
    empty plist (so no service block is asked for), and the formula is
    named after [--repo].  A command line that names no tap and no
    committer publishes to [appscode/homebrew-tap] as [1gtm]. *)
Theorem NewCmdCreate_unbound_fields (cl : CommandLine) (w : W) :
  let tr := trace (NewCmdCreate_Run sys T formulaTemplate Parse cl) w in
  (forall data,
      In data (rendered tr) ->
      templateData.Plist data = []
      /\ templateData.Name data
         = formulaNameFor T (flagVar (flag_repo cl) []))
  /\ (flag_brew_owner cl = None -> flag_brew_repo cl = None ->
      flag_author cl = None -> flag_email cl = None ->
      forall ev,
        In ev tr ->
        (forall tgt, targetOf ev = Some tgt ->
                     tgt = (str "appscode", str "homebrew-tap",
                            flagVar (flag_repo cl) [] ++ str ".rb"))
        /\ (forall opts,
               optionsOf ev = Some opts ->
               github.Committer opts
               = Some {| github.Name := Some (str "1gtm");
                         github.Email := Some (str "1gtm@appscode.com") |})).
Proof.
  cbv zeta. unfold NewCmdCreate_Run. split.
  - intros data Hin.
    apply runCreate_rendered_literal in Hin as [contents ->].
    split; reflexivity.
  - intros Ho Hr Ha He ev Hin.
    pose proof (runCreate_events sys T formulaTemplate Parse (brewOf cl) w)
      as Hev.
    rewrite Forall_forall in Hev. apply Hev in Hin. clear Hev.
    unfold pipelineEvent in Hin. cbv zeta in Hin.
    split.
    + intros tgt Htgt.
      destruct ev; cbn [targetOf] in Htgt; try discriminate Htgt;
        injection Htgt as <-;
        destruct Hin as (_ & content & Hp); cbn [publishEvent] in Hp;
        destruct Hp as (-> & -> & -> & _) || destruct Hp as (-> & -> & ->);
        cbn [brewOf withDefaults set_Name set_Install BrewOwner BrewRepo
             Name Repo]; rewrite Ho, Hr; reflexivity.
    + intros o Hopts.
      destruct ev; cbn [optionsOf] in Hopts; try discriminate Hopts;
        injection Hopts as <-;
        destruct Hin as (_ & content & Hp); cbn [publishEvent] in Hp.
      * destruct Hp as (_ & _ & _ & ->).
        cbn [fileOptions github.Committer brewOf withDefaults set_Name
             set_Install Author AuthorEmail]. rewrite Ha, He. reflexivity.
      * destruct Hp as (_ & _ & _ & sha & ->).
        cbn [fileOptions github.set_SHA github.Committer brewOf withDefaults
             set_Name set_Install Author AuthorEmail]. rewrite Ha, He.
        reflexivity.
Qed.

End PipelineMore.


Lemma runCreate_success_witness :
  List.length
    (remoteWrites (trace (runCreate (scripted firstPublish) asciiOnly []
                                    parseFormula acme) 0%nat))
  = 1%nat.
Proof.
  apply (runCreate_success (scripted firstPublish) asciiOnly [] parseFormula
           acme 0%nat).
  vm_compute. reflexivity.
Defined.

Lemma runCreate_publishes_written_bytes_witness :
  doBuildFormula [] parseFormula acmeRecord = (acmeManifest, None).
Proof.
  destruct (runCreate_publishes_written_bytes (scripted firstPublish)
              asciiOnly [] parseFormula acme 0%nat
              (str "dist/tool-x.rb") acmeManifest 420) as (_ & _ & H).
  - vm_compute. do 5 right. left. reflexivity.
  - apply H. vm_compute. left. reflexivity.
Defined.

Lemma runCreate_record_fields_witness :
  templateData.Tag acmeRecord = str "v1.2.3"
  /\ List.length (templateData.SHA256 acmeRecord) = 64%nat.
Proof.
  destruct (runCreate_record_fields (scripted firstPublish) asciiOnly []
              parseFormula acme 0%nat acmeRecord) as (H1 & _ & H3 & _).
  - vm_compute. left. reflexivity.
  - split; [exact H1 | exact H3].
Defined.

Lemma runCreate_single_install_line_witness :
  templateData.Install acmeRecord = [str "bin.install tool-x-darwin-amd64"].
Proof.
  apply (runCreate_single_install_line (scripted firstPublish) asciiOnly []
           parseFormula acme 0%nat acmeRecord).
  - vm_compute. lia.
  - vm_compute. left. reflexivity.
Defined.

Lemma runCreate_panics_only_in_upload_witness :
  remoteWrites (trace (runCreate (scripted unreachable) asciiOnly []
                                 parseFormula acme) 0%nat)
  = [].
Proof.
  apply (runCreate_panics_only_in_upload (scripted unreachable) asciiOnly []
           parseFormula acme 0%nat).
  vm_compute. reflexivity.
Defined.

Lemma runCreate_remote_target_witness :
  (str "appscode", str "homebrew-tap", str "tool-x.rb")
  = (BrewOwner acme, BrewRepo acme, Repo acme ++ str ".rb").
Proof.
  apply (proj1 (runCreate_remote_target (scripted firstPublish) asciiOnly []
                  parseFormula acme 0%nat)
           (EvGetContents (str "secret") (str "appscode")
                          (str "homebrew-tap") (str "tool-x.rb"))).
  - vm_compute. do 7 right. left. reflexivity.
  - reflexivity.
Defined.

Lemma NewCmdCreate_unbound_fields_witness :
  templateData.Plist acmeRecord = []
  /\ templateData.Name acmeRecord = formulaNameFor asciiOnly (str "tool-x").
Proof.
  apply (proj1 (NewCmdCreate_unbound_fields (scripted firstPublish) asciiOnly
                  [] parseFormula acmeCommandLine 0%nat) acmeRecord).
  vm_compute. left. reflexivity.
Defined.
